(** * asynctest.selector: mock file descriptors and the TestSelector

    A shallow embedding of [asynctest/selector.py]: the [FileDescriptor]
    allocator, the helpers [fd] and [isfilemock], the event injection
    functions and the [TestSelector] class, together with the part of the
    Python standard library's [selectors._BaseSelectorImpl] that
    [TestSelector] inherits from. *)

From Stdlib Require Import ZArith List Bool String Lia DecimalString.
Import ListNotations.
Open Scope Z_scope.

Set Implicit Arguments.

(** ** Python values, exceptions and results *)

(** Exception classes.  Every class listed here derives from [Exception],
    so that a handler [except Exception] catches each of them. *)
Inductive exn : Type :=
| AttributeError
| ValueError
| KeyError
| TypeError
| OSError
| OtherException (tag : nat).

Definition exn_eqb (a b : exn) : bool :=
  match a, b with
  | AttributeError, AttributeError => true
  | ValueError, ValueError => true
  | KeyError, KeyError => true
  | TypeError, TypeError => true
  | OSError, OSError => true
  | OtherException i, OtherException j => Nat.eqb i j
  | _, _ => false
  end.

(** The outcome of evaluating a Python expression: a value, or a raised
    exception. *)
Inductive result (A : Type) : Type :=
| Return (v : A)
| Raise (e : exn).
Arguments Return {A} v.
Arguments Raise {A} e.

Scheme All for result.

Definition raises {A} (r : result A) : Prop := exists e, r = Raise e.

(** The objects handed to the selector.  [PInt n] is an exact [int],
    [PFd n] an instance of the [FileDescriptor] subclass of [int], and
    [PObj oid fileno] any other object: [oid] is its identity and [fileno]
    what evaluating [obj.fileno()] gives.  An object without a [fileno]
    attribute has [fileno = Raise AttributeError]; a [FileMock] has
    [fileno = Return (PFd n)]; a socket has [Return (PInt n)], with [n = -1]
    once closed; a closed file has [Raise ValueError]. *)
Inductive pyobj : Type :=
| PInt (n : Z)
| PFd (n : Z)
| PObj (oid : nat) (fileno : result pyobj).

(** [isinstance(obj, FileDescriptor)] *)
Definition isinstance_FileDescriptor (obj : pyobj) : bool :=
  match obj with PFd _ => true | _ => false end.

(** [isinstance(obj, int)]: [FileDescriptor] is a subclass of [int]. *)
Definition isinstance_int (obj : pyobj) : bool :=
  match obj with PInt _ | PFd _ => true | PObj _ _ => false end.

(** [obj.fileno()]: an [int] has no such attribute. *)
Definition call_fileno (obj : pyobj) : result pyobj :=
  match obj with
  | PInt _ | PFd _ => Raise AttributeError
  | PObj _ r => r
  end.

(** [a == b]: integers compare by value, whatever their class (the subclass
    inherits [int.__eq__]); other objects compare by identity. *)
Definition py_eq (a b : pyobj) : bool :=
  match a, b with
  | (PInt x | PFd x), (PInt y | PFd y) => x =? y
  | PObj i _, PObj j _ => Nat.eqb i j
  | _, _ => false
  end.

(** [a is b].  Objects are compared by identity; for integers, which are
    immutable and interned by the interpreter for small values, identity is
    taken to be equality of class and value. *)
Definition py_is (a b : pyobj) : bool :=
  match a, b with
  | PInt x, PInt y => x =? y
  | PFd x, PFd y => x =? y
  | PObj i _, PObj j _ => Nat.eqb i j
  | _, _ => false
  end.

(** ** FileDescriptor *)

Module FileDescriptor.

(** The class attribute [FileDescriptor.next_fd]. *)
Definition state := Z.

(** [next_fd = 0] *)
Definition next_fd : state := 0.

(** [int.__new__(cls, n)] for an integer argument: every integer is
    accepted. *)
Definition int_new (n : Z) : result Z := Return n.

(** [FileDescriptor.__new__(cls, *args)]: [args = None] stands for a call
    without argument, [Some n] for [FileDescriptor(n)].  Returns the
    updated [next_fd] and the value of the new object. *)
Definition __new__ (nfd : state) (args : option Z) : state * result Z :=
  match (match args with
         | None => int_new nfd
         | Some n => int_new n
         end) with
  | Raise e => (nfd, Raise e)
  | Return s => (Z.max (nfd + 1) (s + 1), Return s)
  end.

(** [FileDescriptor()] *)
Definition allocate (nfd : state) := __new__ nfd None.
(** [FileDescriptor(n)] *)
Definition fromValue (n : Z) (nfd : state) := __new__ nfd (Some n).

(** A sequence of constructor calls. *)
Inductive call : Type :=
| Allocate
| FromValue (n : Z).

Definition do_call (c : call) (nfd : state) : state * result Z :=
  match c with
  | Allocate => allocate nfd
  | FromValue n => fromValue n nfd
  end.

(** The integer a call supplies, if any. *)
Definition supplied (c : call) : list Z :=
  match c with Allocate => [] | FromValue n => [n] end.

(** Runs the calls in order and collects the values of the objects they
    return. *)
Fixpoint run (cs : list call) (nfd : state) : state * list (result Z) :=
  match cs with
  | [] => (nfd, [])
  | c :: cs' =>
      let (nfd1, r) := do_call c nfd in
      let (nfd2, rs) := run cs' nfd1 in
      (nfd2, r :: rs)
  end.

(** [str(n)] for an integer: its decimal representation. *)
Definition str (n : Z) : string := NilZero.string_of_int (Z.to_int n).

(** ['__FileDescriptor_{}'.format(self)] *)
Definition hash_key (n : Z) : string := ("__FileDescriptor_" ++ str n)%string.

End FileDescriptor.

(** ** The interpreter's hash functions

    [hash] on a [str] is a keyed hash whose key is drawn when the process
    starts; [hash] on an [int] is a fixed function of its value.  Both are
    parameters of the development. *)
Class PyRuntime : Type := {
  hash_str : string -> Z;
  hash_int : Z -> Z
}.

(** [hash(n)] in CPython on a 64-bit build: the value reduced modulo the
    Mersenne prime [2^61 - 1], keeping the sign, and never [-1]. *)
Definition cpython_hash_int (n : Z) : Z :=
  let h := Z.sgn n * (Z.abs n mod (2 ^ 61 - 1)) in
  if h =? -1 then -2 else h.

Section Hashing.
Context {rt : PyRuntime}.

(** [FileDescriptor.__hash__] and [int.__hash__]; an object that defines
    neither [__eq__] nor [__hash__] is hashed by identity. *)
Definition py_hash (obj : pyobj) : Z :=
  match obj with
  | PInt n => hash_int n
  | PFd n => hash_str (FileDescriptor.hash_key n)
  | PObj oid _ => Z.of_nat oid
  end.

(** Two keys denote the same entry of a [dict] when they are the same
    object, or have the same hash and compare equal. *)
Definition key_eqb (a b : pyobj) : bool :=
  py_is a b || ((py_hash a =? py_hash b) && py_eq a b).

End Hashing.

(** ** fd and isfilemock *)

(** [fd(fileobj)] *)
Definition fd (fileobj : pyobj) : result pyobj :=
  match (if isinstance_FileDescriptor fileobj
         then Return fileobj
         else call_fileno fileobj) with
  | Return v => Return v
  | Raise _ => Raise ValueError          (* except Exception: raise ValueError *)
  end.

(** [isfilemock(obj)] *)
Definition isfilemock (obj : pyobj) : result bool :=
  match (if isinstance_FileDescriptor obj
         then Return true
         else match call_fileno obj with
              | Return v => Return (isinstance_FileDescriptor v)
              | Raise e => Raise e
              end) with
  | Raise AttributeError => Return false   (* except AttributeError *)
  | r => r
  end.

(** ** Python dictionaries

    A [dict] keeps its entries in insertion order; a key is found by
    [key_eqb], that is by hash and equality, not by structure. *)
Definition dict (V : Type) : Type := list (pyobj * V).

Section Dict.
Context {rt : PyRuntime} {V : Type}.

(** [d.get(k)] *)
Fixpoint dict_get (k : pyobj) (d : dict V) : option V :=
  match d with
  | [] => None
  | (k', v) :: d' => if key_eqb k' k then Some v else dict_get k d'
  end.

(** [k in d] *)
Definition dict_contains (k : pyobj) (d : dict V) : bool :=
  match dict_get k d with Some _ => true | None => false end.

(** [d[k] = v]: an entry whose key matches keeps its key and its place. *)
Fixpoint dict_setitem (k : pyobj) (v : V) (d : dict V) : dict V :=
  match d with
  | [] => [(k, v)]
  | (k', v') :: d' =>
      if key_eqb k' k then (k', v) :: d' else (k', v') :: dict_setitem k v d'
  end.

(** [del d[k]], for a key that is present.  A [dict] holds a key once;
    the entry is removed wherever it stands. *)
Fixpoint dict_delitem (k : pyobj) (d : dict V) : dict V :=
  match d with
  | [] => []
  | (k', v') :: d' =>
      if key_eqb k' k then dict_delitem k d' else (k', v') :: dict_delitem k d'
  end.

(** [d.pop(k)] *)
Definition dict_pop (k : pyobj) (d : dict V) : result (V * dict V) :=
  match dict_get k d with
  | Some v => Return (v, dict_delitem k d)
  | None => Raise KeyError
  end.

(** [d.values()] *)
Definition dict_values (d : dict V) : list V := map snd d.

End Dict.

(** ** A state and exception monad

    A method runs on the state of [self]; the state it leaves behind is kept
    when it raises. *)
Definition M (S A : Type) : Type := S -> S * result A.

Definition ret {S A} (a : A) : M S A := fun s => (s, Return a).
Definition raise {S A} (e : exn) : M S A := fun s => (s, Raise e).
Definition bind {S A B} (m : M S A) (k : A -> M S B) : M S B :=
  fun s => match m s with
           | (s', Return a) => k a s'
           | (s', Raise e) => (s', Raise e)
           end.
Definition lift_result {S A} (r : result A) : M S A := fun s => (s, r).

(** ** The standard library's [selectors] module

    The definitions of this module follow CPython's [Lib/selectors.py]:
    [TestSelector] derives from [selectors._BaseSelectorImpl] and calls its
    methods through [super()]. *)
Module selectors.

Definition EVENT_READ : Z := 1.    (* 1 << 0 *)
Definition EVENT_WRITE : Z := 2.   (* 1 << 1 *)

(** The opaque [data] attached to a registration; [None] is Python's
    [None]. *)
Definition pydata : Type := option nat.

Definition pydata_eqb (a b : pydata) : bool :=
  match a, b with
  | None, None => true
  | Some x, Some y => Nat.eqb x y
  | _, _ => false
  end.

(** [SelectorKey = namedtuple('SelectorKey', ['fileobj', 'fd', 'events', 'data'])] *)
Record SelectorKey : Type := mkSelectorKey {
  fileobj : pyobj;
  fd : pyobj;
  events : Z;
  data : pydata
}.

(** [int(v)]: an exact [int] of the same value for an integer of any
    class, [TypeError] for an object that is not a number. *)
Definition int (v : pyobj) : result pyobj :=
  match v with
  | PInt n | PFd n => Return (PInt n)
  | PObj _ _ => Raise TypeError
  end.

(** [_fileobj_to_fd(fileobj)]:
<<
  if isinstance(fileobj, int):
      fd = fileobj
  else:
      try:
          fd = int(fileobj.fileno())
      except (AttributeError, TypeError, ValueError):
          raise ValueError("Invalid file object: {!r}".format(fileobj)) from None
  if fd < 0:
      raise ValueError("Invalid file descriptor: {}".format(fd))
  return fd
>> *)
Definition _fileobj_to_fd (fileobj : pyobj) : result pyobj :=
  match (if isinstance_int fileobj then Return fileobj
         else match (match call_fileno fileobj with
                     | Return v => int v
                     | Raise e => Raise e
                     end) with
              | Raise (AttributeError | TypeError | ValueError) => Raise ValueError
              | r => r
              end) with
  | Raise e => Raise e
  | Return ((PInt n | PFd n) as d) => if n <? 0 then Raise ValueError else Return d
  | Return (PObj _ _) => Raise TypeError
  end.

(** The attributes [_BaseSelectorImpl.__init__] sets: [_fd_to_key], and
    [_map], the read-only mapping returned by [get_map()], of which only
    its being set or [None] is kept. *)
Record BaseState : Type := mkBase {
  _fd_to_key : dict SelectorKey;
  _map : bool
}.

(** [_BaseSelectorImpl.__init__] *)
Definition __init__ : BaseState := {| _fd_to_key := []; _map := true |}.

Section BaseSelectorImpl.
Context {rt : PyRuntime}.

(** [_BaseSelectorImpl._fileobj_lookup]:
<<
try:
    return _fileobj_to_fd(fileobj)
except ValueError:
    # Do an exhaustive search.
    for key in self._fd_to_key.values():
        if key.fileobj is fileobj:
            return key.fd
    # Raise ValueError after all.
    raise
>> *)
Definition _fileobj_lookup (self : BaseState) (fileobj : pyobj) : result pyobj :=
  match _fileobj_to_fd fileobj with
  | Raise ValueError =>
      match find (fun key => py_is key.(selectors.fileobj) fileobj)
                 (dict_values self.(_fd_to_key)) with
      | Some key => Return key.(fd)
      | None => Raise ValueError
      end
  | r => r
  end.

(** The methods below call [self._fileobj_lookup], [self.register] and
    [self.unregister], which a subclass overrides: they are taken as
    arguments, over the state [S] of the subclass's instances. *)
Variable S : Type.
Variable super : S -> BaseState.
Variable set_super : BaseState -> S -> S.
Variable self_fileobj_lookup : S -> pyobj -> result pyobj.

Definition set_fd_to_key (d : dict SelectorKey) (self : S) : S :=
  set_super {| _fd_to_key := d; _map := (super self).(_map) |} self.

(** [_BaseSelectorImpl.register]:
<<
if (not events) or (events & ~(EVENT_READ | EVENT_WRITE)):
    raise ValueError("Invalid events: {!r}".format(events))
key = SelectorKey(fileobj, self._fileobj_lookup(fileobj), events, data)
if key.fd in self._fd_to_key:
    raise KeyError("{!r} (FD {}) is already registered".format(fileobj, key.fd))
self._fd_to_key[key.fd] = key
return key
>> *)
Definition register (fileobj : pyobj) (events : Z) (data : pydata) : M S SelectorKey :=
  fun self =>
    if (events =? 0)
       || negb (Z.land events (Z.lnot (Z.lor EVENT_READ EVENT_WRITE)) =? 0)
    then (self, Raise ValueError)
    else
      match self_fileobj_lookup self fileobj with
      | Raise e => (self, Raise e)
      | Return d =>
          let key := mkSelectorKey fileobj d events data in
          if dict_contains key.(fd) (super self).(_fd_to_key)
          then (self, Raise KeyError)
          else (set_fd_to_key
                  (dict_setitem key.(fd) key (super self).(_fd_to_key)) self,
                Return key)
      end.

(** [_BaseSelectorImpl.unregister]:
<<
try:
    key = self._fd_to_key.pop(self._fileobj_lookup(fileobj))
except KeyError:
    raise KeyError("{!r} is not registered".format(fileobj)) from None
return key
>> *)
Definition unregister (fileobj : pyobj) : M S SelectorKey :=
  fun self =>
    match self_fileobj_lookup self fileobj with
    | Raise e => (self, Raise e)
    | Return d =>
        match dict_pop d (super self).(_fd_to_key) with
        | Raise e => (self, Raise e)
        | Return (key, rest) => (set_fd_to_key rest self, Return key)
        end
    end.

(** [self.register] and [self.unregister] are the subclass's methods,
    which may return a false value ([None]) instead of a key. *)
Variable self_register : pyobj -> Z -> pydata -> M S (option SelectorKey).
Variable self_unregister : pyobj -> M S (option SelectorKey).

(** [_BaseSelectorImpl.modify]:
<<
try:
    key = self._fd_to_key[self._fileobj_lookup(fileobj)]
except KeyError:
    raise KeyError("{!r} is not registered".format(fileobj)) from None
if events != key.events:
    self.unregister(fileobj)
    key = self.register(fileobj, events, data)
elif data != key.data:
    # Use a shortcut to update the data.
    key = key._replace(data=data)
    self._fd_to_key[key.fd] = key
return key
>> *)
Definition modify (fileobj : pyobj) (events : Z) (data : pydata)
  : M S (option SelectorKey) :=
  fun self =>
    match self_fileobj_lookup self fileobj with
    | Raise e => (self, Raise e)
    | Return d =>
        match dict_get d (super self).(_fd_to_key) with
        | None => (self, Raise KeyError)
        | Some key =>
            if negb (events =? key.(selectors.events)) then
              bind (self_unregister fileobj)
                   (fun _ => self_register fileobj events data) self
            else if negb (pydata_eqb data key.(selectors.data)) then
              let key' := mkSelectorKey key.(selectors.fileobj) key.(fd)
                                        key.(selectors.events) data in
              (set_fd_to_key
                 (dict_setitem key'.(fd) key' (super self).(_fd_to_key)) self,
               Return (Some key'))
            else (self, Return (Some key))
        end
    end.

(** [_BaseSelectorImpl.close]:
<<
self._fd_to_key.clear()
self._map = None
>> *)
Definition close : M S unit :=
  fun self => (set_super {| _fd_to_key := []; _map := false |} self, Return tt).

End BaseSelectorImpl.

End selectors.

(** ** The real selector a TestSelector may wrap

    The wrapped selector is any object with the methods of
    [selectors.BaseSelector]; [B] is the type of its states.  A method
    returns a key, or a value that is false (such as [None]), or raises.
    [TestSelector.modify] is the one method that changes [_fd_to_key]
    before it calls the wrapped selector, so [real_modify] is also given the
    wrapper's [_fd_to_key] as it stands when the call is made: what the
    wrapper has removed by then can make a difference to the outcome.  A
    selector that never looks at the wrapper ignores this argument.  The
    timeout of [real_select] is [None] or a number, and is only passed
    on. *)
Class RealSelector (B : Type) : Type := {
  real_register :
    pyobj -> Z -> selectors.pydata -> M B (option selectors.SelectorKey);
  real_unregister : pyobj -> M B (option selectors.SelectorKey);
  real_modify :
    dict selectors.SelectorKey ->
    pyobj -> Z -> selectors.pydata -> M B (option selectors.SelectorKey);
  real_select : option Z -> M B (list (selectors.SelectorKey * Z));
  real_close : M B unit
}.

(** ** TestSelector *)

Module TestSelector.

(** An instance: the attributes of [_BaseSelectorImpl], and [_selector],
    the wrapped selector or [None]. *)
Record t (B : Type) : Type := mk {
  super : selectors.BaseState;
  _selector : option B
}.
Arguments mk {B} super _selector.

Section Methods.
Context {rt : PyRuntime} {B : Type} {real : RealSelector B}.

Definition set_super (b : selectors.BaseState) (self : t B) : t B :=
  mk b self.(_selector).

Definition set_selector (b : B) (self : t B) : t B :=
  mk self.(super) (Some b).

Definition _fd_to_key (self : t B) : dict selectors.SelectorKey :=
  selectors._fd_to_key self.(super).

Definition set_fd_to_key (d : dict selectors.SelectorKey) (self : t B) : t B :=
  selectors.set_fd_to_key (@super B) set_super d self.

(** [TestSelector.__init__(self, selector=None)] *)
Definition __init__ (selector : option B) : t B :=
  mk selectors.__init__ selector.

(** [TestSelector._fileobj_lookup] *)
Definition _fileobj_lookup (self : t B) (fileobj : pyobj) : result pyobj :=
  match isfilemock fileobj with
  | Raise e => Raise e
  | Return true => fd fileobj
  | Return false => selectors._fileobj_lookup self.(super) fileobj
  end.

(** [isfilemock(fileobj) or self._selector is None]: the wrapped
    selector the call is forwarded to, or [None] when the condition
    holds. *)
Definition forward_to (self : t B) (fileobj : pyobj) : result (option B) :=
  match isfilemock fileobj with
  | Raise e => Raise e
  | Return true => Return None
  | Return false => Return self.(_selector)
  end.

(** Runs a method of the wrapped selector on its state. *)
Definition on_selector {A} (m : M B A) (b : B) : M (t B) A :=
  fun self => let (b', r) := m b in (set_selector b' self, r).

(** The value a method of [_BaseSelectorImpl] returns is a key. *)
Definition as_key (m : M (t B) selectors.SelectorKey)
  : M (t B) (option selectors.SelectorKey) :=
  fun self => match m self with
              | (self', Return key) => (self', Return (Some key))
              | (self', Raise e) => (self', Raise e)
              end.

(** [self._fd_to_key[key.fd] = key] *)
Definition mirror (key : selectors.SelectorKey) (self : t B) : t B :=
  set_fd_to_key (dict_setitem key.(selectors.fd) key (_fd_to_key self)) self.

(** [if fd in self._fd_to_key: del self._fd_to_key[fd]] *)
Definition unmirror (d : pyobj) (self : t B) : t B :=
  if dict_contains d (_fd_to_key self)
  then set_fd_to_key (dict_delitem d (_fd_to_key self)) self
  else self.

(** [TestSelector.register] *)
Definition register (fileobj : pyobj) (events : Z) (data : selectors.pydata)
  : M (t B) (option selectors.SelectorKey) :=
  fun self =>
    match forward_to self fileobj with
    | Raise e => (self, Raise e)
    | Return None =>
        as_key (selectors.register (@super B) set_super _fileobj_lookup
                  fileobj events data) self
    | Return (Some b) =>
        match on_selector (real_register fileobj events data) b self with
        | (self', Return (Some key)) => (mirror key self', Return (Some key))
        | r => r
        end
    end.

(** [TestSelector.unregister] *)
Definition unregister (fileobj : pyobj)
  : M (t B) (option selectors.SelectorKey) :=
  fun self =>
    match forward_to self fileobj with
    | Raise e => (self, Raise e)
    | Return None =>
        as_key (selectors.unregister (@super B) set_super _fileobj_lookup
                  fileobj) self
    | Return (Some b) =>
        match on_selector (real_unregister fileobj) b self with
        | (self', Return (Some key)) =>
            (unmirror key.(selectors.fd) self', Return (Some key))
        | r => r
        end
    end.

(** [TestSelector.modify] *)
Definition modify (fileobj : pyobj) (events : Z) (data : selectors.pydata)
  : M (t B) (option selectors.SelectorKey) :=
  fun self =>
    match forward_to self fileobj with
    | Raise e => (self, Raise e)
    | Return None =>
        selectors.modify (@super B) set_super _fileobj_lookup
          register unregister fileobj events data self
    | Return (Some b) =>
        (* del the key first because modify() fails if events is incorrect *)
        match _fileobj_lookup self fileobj with
        | Raise e => (self, Raise e)
        | Return d =>
            let self1 := unmirror d self in
            match on_selector
                    (real_modify (_fd_to_key self1) fileobj events data)
                    b self1 with
            | (self2, Return (Some key)) => (mirror key self2, Return (Some key))
            | r => r
            end
        end
    end.

(** [TestSelector.select] *)
Definition select (timeout : option Z)
  : M (t B) (list (selectors.SelectorKey * Z)) :=
  fun self =>
    match self.(_selector) with
    | None => (self, Return [])
    | Some b => on_selector (real_select timeout) b self
    end.

(** [TestSelector.close] *)
Definition close : M (t B) unit :=
  fun self =>
    match (match self.(_selector) with
           | Some b => on_selector real_close b self
           | None => (self, Return tt)
           end) with
    | (self', Raise e) => (self', Raise e)
    | (self', Return _) => selectors.close set_super self'
    end.

End Methods.

End TestSelector.

(** ** The event loop and event injection *)

(** What the injection functions hand to [call_soon_threadsafe]: the
    callback [_set_event_ready] with its arguments [fileobj] and [event]
    (the [loop] argument is the loop the callback runs on). *)
Record scheduled : Type := mkScheduled {
  sched_fileobj : pyobj;
  sched_event : Z
}.

(** The event loop, as far as this module uses it: its [_selector]
    attribute, which is a [TestSelector], its method [_process_events] and
    its method [call_soon_threadsafe]. *)
Class EventLoop (B L : Type) : Type := {
  loop_selector : L -> TestSelector.t B;
  _process_events : list (selectors.SelectorKey * Z) -> M L unit;
  call_soon_threadsafe : scheduled -> L -> L
}.

Section Injection.
Context {rt : PyRuntime} {B L : Type} {loop_ops : EventLoop B L}.

(** [_set_event_ready(fileobj, loop, event)] *)
Definition _set_event_ready (fileobj : pyobj) (event : Z) : M L unit :=
  fun loop =>
    let selector := loop_selector loop in
    match TestSelector._fileobj_lookup selector fileobj with
    | Raise e => (loop, Raise e)
    | Return d =>
        if dict_contains d (TestSelector._fd_to_key selector) then
          match dict_get d (TestSelector._fd_to_key selector) with
          | Some key => _process_events [(key, event)] loop
          | None => (loop, Raise KeyError)
          end
        else (loop, Return tt)
    end.

(** [set_read_ready(fileobj, loop)] *)
Definition set_read_ready (fileobj : pyobj) (loop : L) : L :=
  call_soon_threadsafe (mkScheduled fileobj selectors.EVENT_READ) loop.

(** [set_write_ready(fileobj, loop)] *)
Definition set_write_ready (fileobj : pyobj) (loop : L) : L :=
  call_soon_threadsafe (mkScheduled fileobj selectors.EVENT_WRITE) loop.

(** The loop running a scheduled callback. *)
Definition run_scheduled (h : scheduled) : M L unit :=
  _set_event_ready h.(sched_fileobj) h.(sched_event).

End Injection.

(** The two directions of an injected event. *)
Inductive direction : Type := Readable | Writable.

Definition event_of (d : direction) : Z :=
  match d with
  | Readable => selectors.EVENT_READ
  | Writable => selectors.EVENT_WRITE
  end.

(** The injection function for a direction: [set_read_ready] or
    [set_write_ready]. *)
Definition notifyReady {B L} {loop_ops : EventLoop B L}
    (fileobj : pyobj) (loop : L) (d : direction) : L :=
  match d with
  | Readable => set_read_ready fileobj loop
  | Writable => set_write_ready fileobj loop
  end.

(** ** Concrete runtimes, selectors and loops

    Used to run the definitions above on explicit inputs. *)

(** A runtime whose string hash is a polynomial hash of the character
    codes, reduced to 63 bits. *)
Fixpoint poly_hash (s : string) (acc : Z) : Z :=
  match s with
  | EmptyString => acc
  | String c s' => poly_hash s' ((acc * 1000003 + Z.of_nat (Ascii.nat_of_ascii c)) mod 2 ^ 63)
  end.

Definition example_runtime : PyRuntime :=
  {| hash_str := fun s => poly_hash s 7; hash_int := cpython_hash_int |}.

(** A wrapped selector whose [close] raises [OSError]; its other methods
    return [None]. *)
Definition failing_close : RealSelector unit :=
  {| real_register := fun _ _ _ => ret None;
     real_unregister := fun _ => ret None;
     real_modify := fun _ _ _ _ => ret None;
     real_select := fun _ => ret [];
     real_close := raise OSError |}.

(** A wrapped selector that keeps no state and answers every call with a
    key for the descriptor [fileobj.fileno()]; its [modify] raises
    [ValueError] when the wrapper's map still holds that descriptor. *)
Definition key_for (fileobj : pyobj) (events : Z) (data : selectors.pydata)
  : result (option selectors.SelectorKey) :=
  match selectors._fileobj_to_fd fileobj with
  | Return d => Return (Some (selectors.mkSelectorKey fileobj d events data))
  | Raise e => Raise e
  end.

Definition stale_checking : RealSelector unit :=
  {| real_register := fun f e d => lift_result (key_for f e d);
     real_unregister := fun f => lift_result (key_for f selectors.EVENT_READ None);
     real_modify := fun view f e d =>
       match selectors._fileobj_to_fd f with
       | Return k =>
           if dict_contains (rt := example_runtime) k view
           then raise ValueError
           else lift_result (key_for f e d)
       | Raise e => raise e
       end;
     real_select := fun _ => ret [];
     real_close := ret tt |}.

(** A loop that records the lists [_process_events] is called with and the
    callbacks [call_soon_threadsafe] is given. *)
Record RecordingLoop : Type := mkLoop {
  rl_selector : TestSelector.t unit;
  rl_ready : list scheduled;
  rl_processed : list (list (selectors.SelectorKey * Z))
}.

Definition recording_loop : EventLoop unit RecordingLoop :=
  {| loop_selector := rl_selector;
     _process_events := fun evs l =>
       (mkLoop l.(rl_selector) l.(rl_ready) (l.(rl_processed) ++ [evs]), Return tt);
     call_soon_threadsafe := fun h l =>
       mkLoop l.(rl_selector) (l.(rl_ready) ++ [h]) l.(rl_processed) |}.

(** A [FileMock] whose [fileno()] returns [FileDescriptor(n)], a socket
    open on descriptor [n], and a closed socket. *)
Definition file_mock (oid : nat) (n : Z) : pyobj := PObj oid (Return (PFd n)).
Definition open_socket (oid : nat) (n : Z) : pyobj := PObj oid (Return (PInt n)).
Definition closed_socket (oid : nat) : pyobj := PObj oid (Return (PInt (-1))).

(** A [TestSelector] wrapping a selector, after a [FileMock] of descriptor
    [FileDescriptor(0)] has been registered for reading. *)
Definition the_mock : pyobj := file_mock 1 0.

Definition mock_key : selectors.SelectorKey :=
  selectors.mkSelectorKey the_mock (PFd 0) selectors.EVENT_READ None.

Definition register_mock {B} (real : RealSelector B) (selector : option B)
  : TestSelector.t B :=
  fst (TestSelector.register (rt := example_runtime) (real := real)
         the_mock selectors.EVENT_READ None (TestSelector.__init__ selector)).

Definition failing_with_mock : TestSelector.t unit :=
  register_mock failing_close (Some tt).

(** A [TestSelector] wrapping [stale_checking], after a socket open on
    descriptor [5] has been registered for reading. *)
Definition the_socket : pyobj := open_socket 2 5.

Definition socket_key (events : Z) : selectors.SelectorKey :=
  selectors.mkSelectorKey the_socket (PInt 5) events None.

Definition wrapping_with_socket : TestSelector.t unit :=
  fst (TestSelector.register (rt := example_runtime) (real := stale_checking)
         the_socket selectors.EVENT_READ None (TestSelector.__init__ (Some tt))).

(** Recording loops: one whose selector holds the mock, one whose selector
    is empty. *)
Definition loop_with_mock : RecordingLoop :=
  mkLoop (register_mock stale_checking None) [] [].

Definition loop_without_registration : RecordingLoop :=
  mkLoop (TestSelector.__init__ None) [] [].

(** The values among a list of results. *)
Definition values (rs : list (result Z)) : list Z :=
  flat_map (fun r => match r with Return v => [v] | Raise _ => [] end) rs.

(** ** FileMock

    [FileMock.__init__] sets [self.fileno.return_value = FileDescriptor()]:
    the new object, of identity [oid], answers [fileno()] with a
    [FileDescriptor] drawn from [next_fd].  [SocketMock] and [SSLSocketMock]
    only choose the class the mock is specified from and run the same
    [__init__]. *)
Module FileMock.

Definition __init__ (oid : nat) (nfd : FileDescriptor.state)
  : FileDescriptor.state * result pyobj :=
  match FileDescriptor.allocate nfd with
  | (nfd', Return v) => (nfd', Return (PObj oid (Return (PFd v))))
  | (nfd', Raise e) => (nfd', Raise e)
  end.

End FileMock.

(** The values returned by the calls without argument among [cs], given the
    results [rs] of the calls. *)
Fixpoint allocated (cs : list FileDescriptor.call) (rs : list (result Z)) : list Z :=
  match cs, rs with
  | FileDescriptor.Allocate :: cs', Return v :: rs' => v :: allocated cs' rs'
  | _ :: cs', _ :: rs' => allocated cs' rs'
  | _, _ => []
  end.

(** The integer value of a descriptor. *)
Definition descriptor_value (k : pyobj) : option Z :=
  match k with
  | PInt n | PFd n => Some n
  | PObj _ _ => None
  end.

(** The test [_BaseSelectorImpl.register] rejects an event mask with:
    [(not events) or (events & ~(EVENT_READ | EVENT_WRITE))]. *)
Definition invalid_events (events : Z) : bool :=
  (events =? 0)
  || negb (Z.land events
             (Z.lnot (Z.lor selectors.EVENT_READ selectors.EVENT_WRITE)) =? 0).






(** * Properties *)

Unset Implicit Arguments.

(** ** FileDescriptor allocation *)

Module FileDescriptorFacts.
Import FileDescriptor.

Lemma fromValue_eq (n : Z) (nfd : state) :
  fromValue n nfd = (Z.max (nfd + 1) (n + 1), Return n).
Proof. reflexivity. Qed.

Lemma allocate_eq (nfd : state) :
  allocate nfd = (nfd + 1, Return nfd).
Proof. unfold allocate, __new__, int_new. now rewrite Z.max_id. Qed.

Lemma run_cons (c : call) (cs : list call) (nfd : state) :
  run (c :: cs) nfd =
  (fst (run cs (fst (do_call c nfd))),
   snd (do_call c nfd) :: snd (run cs (fst (do_call c nfd)))).
Proof.
  simpl. destruct (do_call c nfd) as [n1 r]. simpl.
  now destruct (run cs n1).
Qed.

Lemma run_app (cs1 cs2 : list call) (nfd : state) :
  run (cs1 ++ cs2) nfd =
  (fst (run cs2 (fst (run cs1 nfd))),
   snd (run cs1 nfd) ++ snd (run cs2 (fst (run cs1 nfd)))).
Proof.
  revert nfd. induction cs1 as [|c cs1 IH]; intros nfd.
  - simpl. now destruct (run cs2 nfd).
  - rewrite <- app_comm_cons, !run_cons, IH. reflexivity.
Qed.

(** A call returns a value below the [next_fd] it leaves, and never
    lowers [next_fd]. *)
Lemma do_call_bound (c : call) (nfd : state) :
  exists v, snd (do_call c nfd) = Return v
            /\ v < fst (do_call c nfd)
            /\ nfd < fst (do_call c nfd)
            /\ Forall (fun n => n < fst (do_call c nfd)) (supplied c).
Proof.
  destruct c as [|n]; cbn [do_call supplied].
  - rewrite allocate_eq. exists nfd. simpl. repeat split; try lia. constructor.
  - rewrite fromValue_eq. exists n. simpl. repeat split; try lia.
    constructor; [lia | constructor].
Qed.

Lemma run_monotone (cs : list call) (nfd : state) : nfd <= fst (run cs nfd).
Proof.
  revert nfd. induction cs as [|c cs IH]; intros nfd; [simpl; lia|].
  rewrite run_cons. simpl.
  destruct (do_call_bound c nfd) as (v & _ & _ & Hlt & _).
  specialize (IH (fst (do_call c nfd))). lia.
Qed.

(** The invariant of the allocator: [next_fd] is above every value
    returned and every value supplied so far, and every call returns. *)
Lemma run_bound (cs : list call) (nfd : state) :
  Forall (fun u => u < fst (run cs nfd)) (values (snd (run cs nfd)))
  /\ Forall (fun n => n < fst (run cs nfd)) (flat_map supplied cs)
  /\ List.length (values (snd (run cs nfd))) = List.length cs.
Proof.
  revert nfd. induction cs as [|c cs IH]; intros nfd.
  - simpl. repeat split; constructor.
  - rewrite run_cons. cbn [fst snd].
    destruct (do_call_bound c nfd) as (v & Hv & Hlt & _ & Hsup).
    destruct (IH (fst (do_call c nfd))) as (IH1 & IH2 & IH3).
    pose proof (run_monotone cs (fst (do_call c nfd))) as Hmono.
    rewrite Hv. unfold values in *. cbn [flat_map app List.length].
    repeat split.
    + constructor; [lia | exact IH1].
    + apply Forall_app. split; [|exact IH2].
      eapply Forall_impl; [|exact Hsup]. cbv beta. intros; lia.
    + now rewrite IH3.
Qed.

End FileDescriptorFacts.

(** C2, as stated, fails: [FileDescriptor(3)] called twice returns the value
    [3] both times, so the second identity equals the one returned before it
    (and the integer supplied before it). *)
Lemma fromValue_repeats_value :
  snd (FileDescriptor.run
         [FileDescriptor.FromValue 3; FileDescriptor.FromValue 3]
         FileDescriptor.next_fd)
  = [Return 3; Return 3].
Proof. reflexivity. Qed.

(** C2, amended: in every sequence of [FileDescriptor()] and
    [FileDescriptor(n)] calls, from any value of [next_fd], every call
    returns; [FileDescriptor(n)] returns the value [n] itself; and the value
    of each [FileDescriptor()] is [next_fd] as the calls before it left it,
    which is strictly greater than every value returned earlier in the
    sequence and than every integer supplied earlier. *)
Theorem allocate_exceeds_earlier :
  forall (pre post : list FileDescriptor.call) (nfd : FileDescriptor.state),
    let before := FileDescriptor.run pre nfd in
    (forall n w, FileDescriptor.fromValue n w = (Z.max (w + 1) (n + 1), Return n))
    /\ (exists rest,
          snd (FileDescriptor.run (pre ++ FileDescriptor.Allocate :: post) nfd)
          = snd before ++ Return (fst before) :: rest)
    /\ List.length (values (snd before)) = List.length pre
    /\ Forall (fun u => u < fst before) (values (snd before))
    /\ Forall (fun n => n < fst before) (flat_map FileDescriptor.supplied pre).
Proof.
  intros pre post nfd before. subst before.
  destruct (FileDescriptorFacts.run_bound pre nfd) as (H1 & H2 & H3).
  split; [intros; apply FileDescriptorFacts.fromValue_eq|].
  split; [|now repeat split].
  rewrite FileDescriptorFacts.run_app, FileDescriptorFacts.run_cons.
  cbn [fst snd FileDescriptor.do_call].
  rewrite FileDescriptorFacts.allocate_eq. cbn [fst snd].
  eexists. reflexivity.
Qed.

(** C9, as stated, fails: [FileDescriptor(-5)] is not rejected; it returns
    an object of value [-5] and moves [next_fd] from [0] to [1]. *)
Lemma fromValue_negative_not_rejected :
  FileDescriptor.fromValue (-5) FileDescriptor.next_fd = (1, Return (-5)).
Proof. reflexivity. Qed.

(** C9, amended: for every negative integer [n], [FileDescriptor(n)] is
    accepted: it returns an object of value [n], and [next_fd], when it is
    not negative, advances by one. *)
Theorem fromValue_negative_accepted :
  forall (n : Z) (nfd : FileDescriptor.state),
    n < 0 -> 0 <= nfd ->
    FileDescriptor.fromValue n nfd = (nfd + 1, Return n).
Proof.
  intros n nfd Hn Hnfd. rewrite FileDescriptorFacts.fromValue_eq.
  f_equal. lia.
Qed.

Lemma fromValue_negative_accepted_witness :
  FileDescriptor.fromValue (-5) 0 = (0 + 1, Return (-5)).
Proof. apply (fromValue_negative_accepted (-5) 0); lia. Defined.

(** ** Dictionaries keyed by descriptors *)

Section DictFacts.
Context {rt : PyRuntime} {V : Type}.

Lemma py_is_refl (k : pyobj) : py_is k k = true.
Proof.
  destruct k; simpl; auto using Z.eqb_refl, Nat.eqb_refl.
Qed.

Lemma key_eqb_refl (k : pyobj) : key_eqb k k = true.
Proof. unfold key_eqb. now rewrite py_is_refl. Qed.

Lemma dict_get_setitem (k : pyobj) (v : V) (d : dict V) :
  dict_get k (dict_setitem k v d) = Some v.
Proof.
  induction d as [|[k' v'] d IH]; simpl.
  - now rewrite key_eqb_refl.
  - destruct (key_eqb k' k) eqn:E; simpl; rewrite E; auto.
Qed.

Lemma dict_get_delitem (k : pyobj) (d : dict V) :
  dict_get k (dict_delitem k d) = None.
Proof.
  induction d as [|[k' v'] d IH]; simpl; auto.
  destruct (key_eqb k' k) eqn:E; simpl; auto. now rewrite E.
Qed.

Lemma dict_contains_delitem (k : pyobj) (d : dict V) :
  dict_contains k (dict_delitem k d) = false.
Proof. unfold dict_contains. now rewrite dict_get_delitem. Qed.

(** A [FileDescriptor] equals the [int] of the same value. *)
Lemma FileDescriptor_eq_int (n : Z) :
  py_eq (PFd n) (PInt n) = true /\ py_eq (PInt n) (PFd n) = true.
Proof. simpl. now rewrite Z.eqb_refl. Qed.

(** When the two hashes differ, the two are different keys of a [dict]:
    one table holds an entry for each. *)
Lemma FileDescriptor_and_int_are_two_keys (n : Z) (a b : V) :
  py_hash (PFd n) <> py_hash (PInt n) ->
  key_eqb (PFd n) (PInt n) = false
  /\ dict_get (PInt n) [(PFd n, a)] = None
  /\ dict_get (PFd n) (dict_setitem (PInt n) b [(PFd n, a)]) = Some a
  /\ dict_get (PInt n) (dict_setitem (PInt n) b [(PFd n, a)]) = Some b.
Proof.
  intros H.
  assert (E : key_eqb (PFd n) (PInt n) = false).
  { unfold key_eqb. cbn [py_is orb].
    apply Z.eqb_neq in H. now rewrite H. }
  repeat split.
  - exact E.
  - cbn [dict_get]. now rewrite E.
  - cbn [dict_setitem]. rewrite E. cbn [dict_get]. now rewrite key_eqb_refl.
  - cbn [dict_setitem]. rewrite E. cbn [dict_get]. now rewrite E, key_eqb_refl.
Qed.

End DictFacts.

(** ** fd and isfilemock *)

(** C7: [fd(obj)] returns [obj] itself when [obj] is a [FileDescriptor],
    and otherwise what [obj.fileno()] returns; when [obj.fileno()] cannot be
    evaluated (no such attribute, or the call raises) it raises
    [ValueError]; for every plain [int] it raises [ValueError]. *)
Theorem fd_resolves_or_raises_ValueError :
  (forall n, fd (PFd n) = Return (PFd n))
  /\ (forall oid v, fd (PObj oid (Return v)) = Return v)
  /\ (forall oid e, fd (PObj oid (Raise e)) = Raise ValueError)
  /\ (forall n, fd (PInt n) = Raise ValueError)
  /\ (forall obj, isinstance_FileDescriptor obj = false ->
                  raises (call_fileno obj) -> fd obj = Raise ValueError).
Proof.
  repeat split; try reflexivity.
  intros obj Hfd [e He]. unfold fd. now rewrite Hfd, He.
Qed.

Lemma fd_resolves_or_raises_ValueError_witness :
  fd (PObj 4 (Raise AttributeError)) = Raise ValueError.
Proof.
  destruct fd_resolves_or_raises_ValueError as (_ & _ & _ & _ & H).
  apply H; [reflexivity | exists AttributeError; reflexivity].
Defined.

(** C8, as stated, fails: for an object whose [fileno()] raises an exception
    other than [AttributeError], such as the [ValueError] of a closed file,
    [isfilemock] raises that exception. *)
Lemma isfilemock_raises_on_closed_file :
  isfilemock (PObj 1 (Raise ValueError)) = Raise ValueError.
Proof. reflexivity. Qed.

(** C8, amended: [isfilemock(obj)] returns [True] when [obj] is a
    [FileDescriptor] or [obj.fileno()] returns one; it returns [False] when
    [obj.fileno()] returns anything else, when [obj] has no [fileno]
    attribute (evaluating [obj.fileno()] raises [AttributeError]) and for
    every plain [int]; when [obj.fileno()] raises another exception,
    [isfilemock] raises that exception. *)
Theorem isfilemock_classifies :
  (forall n, isfilemock (PFd n) = Return true)
  /\ (forall oid n, isfilemock (PObj oid (Return (PFd n))) = Return true)
  /\ (forall oid v, isfilemock (PObj oid (Return v))
                    = Return (isinstance_FileDescriptor v))
  /\ (forall oid, isfilemock (PObj oid (Raise AttributeError)) = Return false)
  /\ (forall n, isfilemock (PInt n) = Return false)
  /\ (forall oid e, isfilemock (PObj oid (Raise e))
                    = if exn_eqb e AttributeError then Return false else Raise e).
Proof.
  repeat split; try reflexivity.
  intros oid e. now destruct e.
Qed.

(** ** TestSelector.close *)

(** C1, as stated, fails: when the wrapped selector's [close] raises, the
    exception leaves [TestSelector.close] before [super().close()] is
    reached, and [_fd_to_key] still holds the mock's registration. *)
Lemma close_keeps_the_map_when_the_wrapped_close_raises :
  TestSelector.close (real := failing_close) failing_with_mock
  = (failing_with_mock, Raise OSError)
  /\ TestSelector._fd_to_key failing_with_mock = [(PFd 0, mock_key)].
Proof. split; reflexivity. Qed.

(** C1, amended: [close()] first closes the wrapped selector when there is
    one.  When that call raises, the exception is surfaced to the caller and
    the local bookkeeping is left as it was.  Otherwise (no wrapped
    selector, or its [close] returned) [_fd_to_key] is cleared, [_map] is
    reset and [close()] returns. *)
Theorem close_clears_unless_the_wrapped_close_raises :
  forall (B : Type) (real : RealSelector B) (self : TestSelector.t B),
    match TestSelector._selector self with
    | None =>
        TestSelector.close self
        = (TestSelector.mk (selectors.mkBase [] false) None, Return tt)
    | Some b =>
        match real_close b with
        | (b', Return _) =>
            TestSelector.close self
            = (TestSelector.mk (selectors.mkBase [] false) (Some b'), Return tt)
        | (b', Raise e) =>
            TestSelector.close self
            = (TestSelector.mk (TestSelector.super self) (Some b'), Raise e)
        end
    end.
Proof.
  intros B real [base [b|]]; unfold TestSelector.close; cbn.
  - unfold TestSelector.on_selector.
    destruct (real_close b) as [b' [u|e]]; reflexivity.
  - reflexivity.
Qed.

(** ** Routing between the local table and the wrapped selector *)

Section TestSelectorFacts.
Context {rt : PyRuntime} {B : Type} {real : RealSelector B}.
Import TestSelector.

Lemma forward_to_synthetic (self : t B) (f : pyobj) :
  isfilemock f = Return true -> forward_to self f = Return None.
Proof. intros H. unfold forward_to. now rewrite H. Qed.

Lemma forward_to_real (self : t B) (f : pyobj) :
  isfilemock f = Return false -> forward_to self f = Return (_selector self).
Proof. intros H. unfold forward_to. now rewrite H. Qed.

Lemma selector_set_fd_to_key (d : dict selectors.SelectorKey) (self : t B) :
  _selector (set_fd_to_key d self) = _selector self.
Proof. reflexivity. Qed.

Lemma fd_to_key_set_selector (b : B) (self : t B) :
  _fd_to_key (set_selector b self) = _fd_to_key self.
Proof. reflexivity. Qed.

Lemma fd_to_key_set_fd_to_key (d : dict selectors.SelectorKey) (self : t B) :
  _fd_to_key (set_fd_to_key d self) = d.
Proof. reflexivity. Qed.

(** The methods inherited from [_BaseSelectorImpl] leave the wrapped
    selector alone. *)
Lemma base_register_keeps_selector f ev dt (self : t B) :
  _selector (fst (as_key (selectors.register (@super B) set_super
                              _fileobj_lookup f ev dt) self))
  = _selector self.
Proof.
  unfold as_key, selectors.register.
  repeat match goal with
         | |- context [if ?c then _ else _] => destruct c
         | |- context [match ?x with Return _ => _ | Raise _ => _ end] =>
             destruct x
         end; reflexivity.
Qed.

Lemma base_unregister_keeps_selector f (self : t B) :
  _selector (fst (as_key (selectors.unregister (@super B) set_super
                              _fileobj_lookup f) self))
  = _selector self.
Proof.
  unfold as_key, selectors.unregister.
  destruct (_fileobj_lookup self f) as [d|e]; [|reflexivity].
  destruct (dict_pop d _) as [[key rest]|e]; reflexivity.
Qed.

Lemma register_synthetic_keeps_selector f ev dt (self : t B) :
  isfilemock f = Return true ->
  _selector (fst (register f ev dt self)) = _selector self.
Proof.
  intros H. unfold register. rewrite (forward_to_synthetic self f H).
  apply base_register_keeps_selector.
Qed.

Lemma unregister_synthetic_keeps_selector f (self : t B) :
  isfilemock f = Return true ->
  _selector (fst (unregister f self)) = _selector self.
Proof.
  intros H. unfold unregister. rewrite (forward_to_synthetic self f H).
  apply base_unregister_keeps_selector.
Qed.

Lemma modify_synthetic_keeps_selector f ev dt (self : t B) :
  isfilemock f = Return true ->
  _selector (fst (modify f ev dt self)) = _selector self.
Proof.
  intros H. unfold modify. rewrite (forward_to_synthetic self f H).
  unfold selectors.modify.
  destruct (_fileobj_lookup self f) as [d|e]; [|reflexivity].
  destruct (dict_get d _) as [key|]; [|reflexivity].
  destruct (negb (ev =? selectors.events key)).
  - unfold bind.
    pose proof (unregister_synthetic_keeps_selector f self H) as Hu.
    destruct (unregister f self) as [self1 [r|e]]; cbn [fst] in Hu.
    + rewrite <- Hu. now apply register_synthetic_keeps_selector.
    + exact Hu.
  - destruct (negb (selectors.pydata_eqb dt (selectors.data key)));
      reflexivity.
Qed.

(** What the wrapped selector is shown by [modify] holds no entry for the
    descriptor. *)
Lemma unmirror_removes (d : pyobj) (self : t B) :
  dict_get d (_fd_to_key (unmirror d self)) = None.
Proof.
  unfold unmirror. destruct (dict_contains d (_fd_to_key self)) eqn:E.
  - rewrite fd_to_key_set_fd_to_key. apply dict_get_delitem.
  - unfold dict_contains in E.
    now destruct (dict_get d (_fd_to_key self)).
Qed.

Lemma mirror_stores (key : selectors.SelectorKey) (self : t B) :
  dict_get (selectors.fd key) (_fd_to_key (mirror key self)) = Some key.
Proof. unfold mirror. rewrite fd_to_key_set_fd_to_key. apply dict_get_setitem. Qed.

(** The result of [select] is a function of the wrapped selector and of
    the timeout. *)
Lemma select_result_depends_on_selector_only timeout (self self' : t B) :
  _selector self = _selector self' ->
  snd (select timeout self) = snd (select timeout self').
Proof.
  intros H. unfold select, on_selector. rewrite <- H.
  destruct (_selector self) as [b|]; [|reflexivity].
  now destruct (real_select timeout b).
Qed.

End TestSelectorFacts.

(** ** TestSelector.select *)

(** C4: without a wrapped selector, [select] returns the empty list for any
    registrations and any timeout, and changes nothing; with a wrapped
    selector it returns what the wrapped selector's [select] returns (or
    raises what it raises), untouched.  The local table takes no part in
    the result: replacing [_fd_to_key] does not change it, and neither does
    registering, modifying or unregistering a mock beforehand, since these
    never reach the wrapped selector. *)
Theorem select_returns_only_what_the_wrapped_selector_returns :
  forall (rt : PyRuntime) (B : Type) (real : RealSelector B),
    (forall base timeout,
        TestSelector.select timeout (TestSelector.mk base None)
        = (TestSelector.mk base (@None B), Return []))
    /\ (forall base b timeout,
           TestSelector.select timeout (TestSelector.mk base (Some b))
           = (TestSelector.mk base (Some (fst (real_select timeout b))),
              snd (real_select timeout b)))
    /\ (forall (self : TestSelector.t B) d timeout,
           snd (TestSelector.select timeout (TestSelector.set_fd_to_key d self))
           = snd (TestSelector.select timeout self))
    /\ (forall (self : TestSelector.t B) f ev dt timeout,
           isfilemock f = Return true ->
           snd (TestSelector.select timeout
                  (fst (TestSelector.register f ev dt self)))
           = snd (TestSelector.select timeout self)
           /\ snd (TestSelector.select timeout
                     (fst (TestSelector.modify f ev dt self)))
              = snd (TestSelector.select timeout self)
           /\ snd (TestSelector.select timeout
                     (fst (TestSelector.unregister f self)))
              = snd (TestSelector.select timeout self)).
Proof.
  intros rt B real. split; [|split; [|split]].
  - reflexivity.
  - intros base b timeout. unfold TestSelector.select, TestSelector.on_selector.
    cbn. now destruct (real_select timeout b).
  - intros self d timeout.
    now apply select_result_depends_on_selector_only.
  - intros self f ev dt timeout H. repeat split;
      apply select_result_depends_on_selector_only.
    + now apply register_synthetic_keeps_selector.
    + now apply modify_synthetic_keeps_selector.
    + now apply unregister_synthetic_keeps_selector.
Qed.

Lemma select_returns_only_what_the_wrapped_selector_returns_witness :
  snd (TestSelector.select (real := stale_checking) (Some 0)
         (fst (TestSelector.register (rt := example_runtime)
                 (real := stale_checking)
                 the_mock selectors.EVENT_READ None
                 (TestSelector.__init__ None))))
  = Return [].
Proof.
  destruct (select_returns_only_what_the_wrapped_selector_returns
              example_runtime unit stale_checking) as (H0 & _ & _ & H).
  destruct (H (TestSelector.__init__ None) the_mock selectors.EVENT_READ None
              (Some 0) eq_refl) as (H1 & _).
  rewrite H1. unfold TestSelector.__init__. now rewrite H0.
Defined.

(** ** TestSelector.modify *)

(** C6: [modify] on an object that is not a mock, in a [TestSelector] that
    wraps a selector.  When the descriptor of the object cannot be found the
    call raises and nothing is forwarded.  Otherwise the entry of the
    descriptor is removed from [_fd_to_key] first: the map the wrapped
    selector's [modify] is called on holds no entry for it.  The key the
    wrapped selector returns is then stored under its descriptor, and a
    failure of the wrapped selector leaves the map without the entry.
    Consequently a wrapped selector that rejects [modify] only while the map
    still holds the descriptor does not make [modify] fail. *)
Theorem modify_removes_the_entry_before_forwarding :
  forall (rt : PyRuntime) (B : Type) (real : RealSelector B)
         (self : TestSelector.t B) (b : B) (fileobj : pyobj)
         (ev : Z) (dt : selectors.pydata),
    TestSelector._selector self = Some b ->
    isfilemock fileobj = Return false ->
    match TestSelector._fileobj_lookup self fileobj with
    | Raise e => TestSelector.modify fileobj ev dt self = (self, Raise e)
    | Return d =>
        let cleared := TestSelector.unmirror d self in
        let seen := TestSelector._fd_to_key cleared in
        dict_get d seen = None
        /\ TestSelector.modify fileobj ev dt self
           = match real_modify seen fileobj ev dt b with
             | (b', Return (Some key)) =>
                 (TestSelector.mirror key (TestSelector.set_selector b' cleared),
                  Return (Some key))
             | (b', r) => (TestSelector.set_selector b' cleared, r)
             end
        /\ (forall b' key,
               real_modify seen fileobj ev dt b = (b', Return (Some key)) ->
               dict_get (selectors.fd key)
                 (TestSelector._fd_to_key
                    (fst (TestSelector.modify fileobj ev dt self)))
               = Some key)
        /\ (forall b' e,
               real_modify seen fileobj ev dt b = (b', Raise e) ->
               dict_get d
                 (TestSelector._fd_to_key
                    (fst (TestSelector.modify fileobj ev dt self)))
               = None)
        /\ ((forall view,
                dict_get d view = None ->
                ~ raises (snd (real_modify view fileobj ev dt b))) ->
            ~ raises (snd (TestSelector.modify fileobj ev dt self)))
    end.
Proof.
  intros rt B real self b fileobj ev dt Hsel Hmock.
  unfold TestSelector.modify.
  rewrite (forward_to_real self fileobj Hmock), Hsel.
  destruct (TestSelector._fileobj_lookup self fileobj) as [d|e]; [|reflexivity].
  cbv zeta. unfold TestSelector.on_selector.
  pose proof (unmirror_removes d self) as Hgone.
  set (cleared := TestSelector.unmirror d self) in *.
  set (seen := TestSelector._fd_to_key cleared) in *.
  split; [exact Hgone|].
  destruct (real_modify seen fileobj ev dt b) as [b' [[key|]|e]] eqn:E.
  - split; [reflexivity|]. split; [|split].
    + intros b2 key2 Heq. injection Heq as <- <-. cbn [fst].
      apply mirror_stores.
    + intros b2 e Heq. discriminate Heq.
    + intros _ [e He]. discriminate He.
  - split; [reflexivity|]. split; [|split].
    + intros b2 key2 Heq. discriminate Heq.
    + intros b2 e Heq. discriminate Heq.
    + intros _ [e He]. discriminate He.
  - split; [reflexivity|]. split; [|split].
    + intros b2 key2 Heq. discriminate Heq.
    + intros b2 e2 _. cbn [fst]. exact Hgone.
    + intros Hok _. apply (Hok seen Hgone). rewrite E. now exists e.
Qed.

Lemma modify_removes_the_entry_before_forwarding_witness :
  snd (real_modify (RealSelector := stale_checking)
         (TestSelector._fd_to_key wrapping_with_socket)
         the_socket selectors.EVENT_WRITE None tt)
  = Raise ValueError
  /\ TestSelector.modify (rt := example_runtime) (real := stale_checking)
       the_socket selectors.EVENT_WRITE None wrapping_with_socket
     = (TestSelector.mk
          (selectors.mkBase [(PInt 5, socket_key selectors.EVENT_WRITE)] true)
          (Some tt),
        Return (Some (socket_key selectors.EVENT_WRITE))).
Proof.
  split; [reflexivity|].
  pose proof (modify_removes_the_entry_before_forwarding
                example_runtime unit stale_checking wrapping_with_socket tt
                the_socket selectors.EVENT_WRITE None eq_refl eq_refl) as H.
  cbv zeta in H. destruct H as (_ & H & _).
  rewrite H. reflexivity.
Defined.

(** ** Plain integers *)

(** C10: for every plain [int] [n], whatever is registered and whatever
    [FileDescriptor] values exist, [isfilemock(n)] is [False].  So the
    routing condition of [register], [unregister] and [modify] sends [n] to
    the wrapped selector whenever there is one, and the descriptor of [n] is
    computed by [_BaseSelectorImpl._fileobj_lookup], never by [fd]: it is
    the plain [int] [n] itself when [n] is not negative.  In the table, an
    [int] key does not find the entry of a [FileDescriptor] of the same
    value when their hashes differ. *)
Theorem plain_int_is_routed_as_a_real_handle :
  forall (rt : PyRuntime) (B : Type) (real : RealSelector B)
         (self : TestSelector.t B) (n : Z),
    isfilemock (PInt n) = Return false
    /\ TestSelector.forward_to self (PInt n)
       = Return (TestSelector._selector self)
    /\ TestSelector._fileobj_lookup self (PInt n)
       = selectors._fileobj_lookup (TestSelector.super self) (PInt n)
    /\ (0 <= n -> TestSelector._fileobj_lookup self (PInt n) = Return (PInt n))
    /\ (forall b ev dt,
           TestSelector._selector self = Some b ->
           TestSelector.register (PInt n) ev dt self
           = match real_register (PInt n) ev dt b with
             | (b', Return (Some key)) =>
                 (TestSelector.mirror key (TestSelector.set_selector b' self),
                  Return (Some key))
             | (b', r) => (TestSelector.set_selector b' self, r)
             end
           /\ TestSelector.unregister (PInt n) self
              = match real_unregister (PInt n) b with
                | (b', Return (Some key)) =>
                    (TestSelector.unmirror (selectors.fd key)
                       (TestSelector.set_selector b' self),
                     Return (Some key))
                | (b', r) => (TestSelector.set_selector b' self, r)
                end
           /\ (0 <= n ->
               TestSelector.modify (PInt n) ev dt self
               = let cleared := TestSelector.unmirror (PInt n) self in
                 match real_modify (TestSelector._fd_to_key cleared)
                         (PInt n) ev dt b with
                 | (b', Return (Some key)) =>
                     (TestSelector.mirror key
                        (TestSelector.set_selector b' cleared),
                      Return (Some key))
                 | (b', r) => (TestSelector.set_selector b' cleared, r)
                 end))
    /\ (py_hash (PFd n) <> py_hash (PInt n) ->
        forall key : selectors.SelectorKey,
          dict_get (PInt n) [(PFd n, key)] = None).
Proof.
  intros rt B real self n.
  assert (Hlookup : 0 <= n ->
            TestSelector._fileobj_lookup self (PInt n) = Return (PInt n)).
  { intros Hn. unfold TestSelector._fileobj_lookup. cbn.
    unfold selectors._fileobj_lookup, selectors._fileobj_to_fd. cbn.
    destruct (n <? 0) eqn:E; [apply Z.ltb_lt in E; lia | reflexivity]. }
  split; [reflexivity|]. split; [reflexivity|]. split; [reflexivity|].
  split; [exact Hlookup|]. split.
  - intros b ev dt Hsel. split; [|split].
    + unfold TestSelector.register.
      rewrite (forward_to_real self (PInt n) eq_refl), Hsel.
      unfold TestSelector.on_selector.
      destruct (real_register (PInt n) ev dt b) as [b' [[key|]|e]]; reflexivity.
    + unfold TestSelector.unregister.
      rewrite (forward_to_real self (PInt n) eq_refl), Hsel.
      unfold TestSelector.on_selector.
      destruct (real_unregister (PInt n) b) as [b' [[key|]|e]]; reflexivity.
    + intros Hn. unfold TestSelector.modify.
      rewrite (forward_to_real self (PInt n) eq_refl), Hsel, (Hlookup Hn).
      cbv zeta. unfold TestSelector.on_selector.
      destruct (real_modify _ (PInt n) ev dt b) as [b' [[key|]|e]]; reflexivity.
  - intros Hh key.
    now destruct (FileDescriptor_and_int_are_two_keys n key key Hh) as (_ & H & _).
Qed.

Lemma plain_int_is_routed_as_a_real_handle_witness :
  TestSelector._fileobj_lookup failing_with_mock (PInt 0)
  = Return (PInt 0)
  /\ TestSelector.register (rt := example_runtime) (real := failing_close)
       (PInt 0) selectors.EVENT_READ None failing_with_mock
     = (failing_with_mock, Return None)
  /\ dict_get (rt := example_runtime) (PInt 0)
       (TestSelector._fd_to_key failing_with_mock) = None.
Proof.
  destruct (plain_int_is_routed_as_a_real_handle
              example_runtime unit failing_close failing_with_mock 0)
    as (_ & _ & _ & H1 & H2 & H3).
  split; [apply H1; lia|]. split.
  - destruct (H2 tt selectors.EVENT_READ None eq_refl) as (H & _).
    rewrite H. reflexivity.
  - apply (H3 ltac:(vm_compute; discriminate) mock_key).
Defined.

(** ** Event injection *)

(** C5, as stated, fails: for a socket that has been unregistered and
    closed, whose [fileno()] is [-1], the callback scheduled by
    [set_read_ready] raises [ValueError] when the loop runs it. *)
Lemma injection_raises_for_a_closed_socket :
  rl_ready (set_read_ready (loop_ops := recording_loop)
              (closed_socket 9) loop_without_registration)
  = [mkScheduled (closed_socket 9) selectors.EVENT_READ]
  /\ run_scheduled (rt := example_runtime) (loop_ops := recording_loop)
       (mkScheduled (closed_socket 9) selectors.EVENT_READ)
       loop_without_registration
     = (loop_without_registration, Raise ValueError).
Proof. split; reflexivity. Qed.

(** C5, amended: [set_read_ready] and [set_write_ready] only hand the
    callback to [call_soon_threadsafe].  When the loop runs it, the callback
    looks the descriptor of the object up in the loop's selector.  If the
    lookup gives a descriptor that is registered, [_process_events] is
    called once, on the list of the single pair made of the registered key
    and the event of the direction; if it gives a descriptor that is not
    registered, nothing is done and nothing is raised; if the lookup itself
    raises (the object has no usable descriptor), that exception leaves the
    callback and [_process_events] is not called. *)
Theorem injected_event_is_processed_once_when_registered :
  forall (rt : PyRuntime) (B L : Type) (loop_ops : EventLoop B L)
         (fileobj : pyobj) (dir : direction) (loop0 loop : L),
    let task := mkScheduled fileobj (event_of dir) in
    let selector := loop_selector loop in
    notifyReady fileobj loop0 dir = call_soon_threadsafe task loop0
    /\ match TestSelector._fileobj_lookup selector fileobj with
       | Return d =>
           match dict_get d (TestSelector._fd_to_key selector) with
           | Some key =>
               run_scheduled task loop
               = _process_events [(key, event_of dir)] loop
           | None => run_scheduled task loop = (loop, Return tt)
           end
       | Raise e => run_scheduled task loop = (loop, Raise e)
       end.
Proof.
  intros rt B L loop_ops fileobj dir loop0 loop task selector.
  split; [now destruct dir|].
  unfold run_scheduled, _set_event_ready. cbn [sched_fileobj sched_event task].
  fold selector.
  destruct (TestSelector._fileobj_lookup selector fileobj) as [d|e];
    [|reflexivity].
  unfold dict_contains.
  destruct (dict_get d (TestSelector._fd_to_key selector)); reflexivity.
Qed.

(** On the recording loop: a registered mock gets one call of
    [_process_events] with one pair; a mock that is not registered gets
    none. *)
Example injection_on_the_recording_loop :
  rl_processed
    (fst (run_scheduled (rt := example_runtime) (loop_ops := recording_loop)
            (mkScheduled the_mock selectors.EVENT_READ) loop_with_mock))
  = [[(mock_key, selectors.EVENT_READ)]]
  /\ run_scheduled (rt := example_runtime) (loop_ops := recording_loop)
       (mkScheduled the_mock selectors.EVENT_READ) loop_without_registration
     = (loop_without_registration, Return tt).
Proof. split; reflexivity. Qed.

(** * Further properties *)

(** ** The allocator *)

Lemma run_allocate_bounds (cs : list FileDescriptor.call) (nfd : FileDescriptor.state) :
  Forall (fun v => nfd <= v) (allocated cs (snd (FileDescriptor.run cs nfd)))
  /\ NoDup (allocated cs (snd (FileDescriptor.run cs nfd))).
Proof.
  revert nfd. induction cs as [|c cs IH]; intros nfd.
  - split; constructor.
  - rewrite FileDescriptorFacts.run_cons. cbn [snd].
    destruct (IH (fst (FileDescriptor.do_call c nfd))) as [IH1 IH2].
    destruct (FileDescriptorFacts.do_call_bound c nfd) as (v & Hv & _ & Hlt & _).
    assert (Hup : Forall (fun u => nfd < u)
                    (allocated cs (snd (FileDescriptor.run cs
                                          (fst (FileDescriptor.do_call c nfd)))))).
    { eapply Forall_impl; [|exact IH1]. cbv beta. intros; lia. }
    destruct c as [|n].
    + cbn [FileDescriptor.do_call] in *.
      rewrite FileDescriptorFacts.allocate_eq in *. cbn [fst snd allocated] in *.
      split.
      * constructor; [lia|]. eapply Forall_impl; [|exact Hup]. cbv beta. intros; lia.
      * constructor; [|exact IH2]. intros Hin.
        rewrite Forall_forall in Hup. specialize (Hup _ Hin). lia.
    + cbn [FileDescriptor.do_call] in *.
      rewrite FileDescriptorFacts.fromValue_eq in *. cbn [fst snd allocated] in *.
      split; [|exact IH2].
      eapply Forall_impl; [|exact Hup]. cbv beta. intros; lia.
Qed.

(** X1: in any sequence of constructor calls, from any [next_fd], the
    values of the [FileDescriptor()] calls are pairwise distinct, and none
    is below the [next_fd] the sequence started from. *)
Theorem allocated_values_are_distinct :
  forall (cs : list FileDescriptor.call) (nfd : FileDescriptor.state),
    NoDup (allocated cs (snd (FileDescriptor.run cs nfd)))
    /\ Forall (fun v => nfd <= v) (allocated cs (snd (FileDescriptor.run cs nfd))).
Proof.
  intros cs nfd. destruct (run_allocate_bounds cs nfd). now split.
Qed.

(** X2: [k] calls of [FileDescriptor()] in a row return [next_fd],
    [next_fd + 1], ... and leave [next_fd] increased by [k]. *)
Theorem allocate_counts_up :
  forall (k : nat) (nfd : FileDescriptor.state),
    FileDescriptor.run (repeat FileDescriptor.Allocate k) nfd
    = (nfd + Z.of_nat k,
       map (fun i => Return (nfd + Z.of_nat i)) (seq 0 k)).
Proof.
  induction k as [|k IH]; intros nfd.
  - cbn. now rewrite Z.add_0_r.
  - cbn [repeat]. rewrite FileDescriptorFacts.run_cons.
    cbn [FileDescriptor.do_call]. rewrite FileDescriptorFacts.allocate_eq.
    cbn [fst snd]. rewrite IH. cbn [fst snd seq map].
    f_equal; [lia|]. f_equal; [f_equal; lia|].
    rewrite <- seq_shift, map_map. apply map_ext. intros i. f_equal. lia.
Qed.

(** X3: every call moves [next_fd] up by at least one, so after a sequence
    of calls [next_fd] has grown by at least the number of calls; it stays
    above every value returned.  (It can exceed the highest value issued
    plus one: [FileDescriptor(3)] then [FileDescriptor(1)] leaves it at 5.) *)
Theorem next_fd_grows_with_every_call :
  forall (cs : list FileDescriptor.call) (nfd : FileDescriptor.state),
    nfd + Z.of_nat (List.length cs) <= fst (FileDescriptor.run cs nfd)
    /\ Forall (fun u => u < fst (FileDescriptor.run cs nfd))
         (values (snd (FileDescriptor.run cs nfd)))
    /\ fst (FileDescriptor.run
              [FileDescriptor.FromValue 3; FileDescriptor.FromValue 1]
              FileDescriptor.next_fd) = 5.
Proof.
  intros cs nfd. split; [|split; [apply FileDescriptorFacts.run_bound | reflexivity]].
  revert nfd. induction cs as [|c cs IH]; intros nfd.
  - cbn. lia.
  - rewrite FileDescriptorFacts.run_cons. cbn [fst List.length].
    destruct (FileDescriptorFacts.do_call_bound c nfd) as (v & _ & _ & Hlt & _).
    specialize (IH (fst (FileDescriptor.do_call c nfd))). lia.
Qed.

(** ** Mocks *)

Lemma isfilemock_true_inv (f : pyobj) :
  isfilemock f = Return true ->
  exists n, fd f = Return (PFd n)
            /\ forall (B : Type) (self : TestSelector.t B),
                 TestSelector._fileobj_lookup self f = Return (PFd n).
Proof.
  intros H.
  assert (Hfd : exists n, fd f = Return (PFd n)).
  { destruct f as [n|n|oid [v|e]]; cbn in H; try discriminate.
    - now exists n.
    - destruct v as [m|m|oid' r]; cbn in H; try discriminate. now exists m.
    - destruct e; discriminate. }
  destruct Hfd as [n Hn]. exists n. split; [exact Hn|].
  intros B self. unfold TestSelector._fileobj_lookup. now rewrite H.
Qed.

(** X4: a [FileMock] built when [next_fd] is [nfd] answers [fileno()] with
    [FileDescriptor(nfd)] and moves [next_fd] to [nfd + 1]; [isfilemock]
    accepts it, and [fd] and every [TestSelector]'s lookup resolve it to
    that descriptor.  Two mocks built one after the other have descriptors
    that are different keys of a [dict], whatever the hash functions. *)
Theorem FileMock_has_fresh_descriptor :
  forall (rt : PyRuntime) (oid oid' : nat) (nfd : FileDescriptor.state),
    let m := PObj oid (Return (PFd nfd)) in
    let m' := PObj oid' (Return (PFd (nfd + 1))) in
    FileMock.__init__ oid nfd = (nfd + 1, Return m)
    /\ FileMock.__init__ oid' (nfd + 1) = (nfd + 2, Return m')
    /\ isfilemock m = Return true
    /\ fd m = Return (PFd nfd)
    /\ (forall (B : Type) (self : TestSelector.t B),
           TestSelector._fileobj_lookup self m = Return (PFd nfd))
    /\ key_eqb (PFd nfd) (PFd (nfd + 1)) = false.
Proof.
  intros rt oid oid' nfd m m'. subst m m'.
  unfold FileMock.__init__. rewrite !FileDescriptorFacts.allocate_eq.
  replace (nfd + 1 + 1) with (nfd + 2) by lia.
  repeat split.
  unfold key_eqb. cbn [py_is py_eq].
  assert (E : (nfd =? nfd + 1) = false) by (apply Z.eqb_neq; lia).
  rewrite E. now rewrite andb_false_r.
Qed.

(** ** More on dictionaries *)

Section MoreDictFacts.
Context {rt : PyRuntime} {V : Type}.

Lemma key_eqb_descriptor_value (a b : pyobj) :
  key_eqb a b = true -> descriptor_value a = descriptor_value b.
Proof.
  unfold key_eqb. intros H. apply orb_true_iff in H.
  destruct a as [x|x|i r], b as [y|y|j s]; cbn in *;
    destruct H as [H|H]; try discriminate; try reflexivity;
    try (apply andb_true_iff in H; destruct H as [_ H]);
    try discriminate;
    try (apply Z.eqb_eq in H; now subst).
Qed.


Lemma dict_setitem_absent (k : pyobj) (v : V) (d : dict V) :
  dict_get k d = None -> dict_setitem k v d = d ++ [(k, v)].
Proof.
  induction d as [|[k' v'] d IH]; cbn; [reflexivity|].
  destruct (key_eqb k' k); [discriminate|]. intros H. now rewrite IH.
Qed.

Lemma dict_delitem_setitem_absent (k : pyobj) (v : V) (d : dict V) :
  dict_get k d = None -> dict_delitem k (dict_setitem k v d) = d.
Proof.
  intros H. rewrite (dict_setitem_absent k v d H).
  induction d as [|[k' v'] d IH]; cbn in *.
  - now rewrite key_eqb_refl.
  - destruct (key_eqb k' k); [discriminate|]. now rewrite IH.
Qed.

Lemma dict_get_setitem_other (k1 k2 : pyobj) (v : V) (d : dict V) :
  descriptor_value k1 <> descriptor_value k2 ->
  dict_get k1 (dict_setitem k2 v d) = dict_get k1 d.
Proof.
  intros Hne.
  assert (E12 : key_eqb k2 k1 = false).
  { destruct (key_eqb k2 k1) eqn:E; [|reflexivity].
    apply key_eqb_descriptor_value in E. congruence. }
  induction d as [|[k' v'] d IH]; cbn.
  - now rewrite E12.
  - destruct (key_eqb k' k2) eqn:E2; cbn.
    + destruct (key_eqb k' k1) eqn:E1; [|reflexivity].
      apply key_eqb_descriptor_value in E1, E2. congruence.
    + destruct (key_eqb k' k1); [reflexivity | exact IH].
Qed.

Lemma dict_get_delitem_other (k1 k2 : pyobj) (d : dict V) :
  descriptor_value k1 <> descriptor_value k2 ->
  dict_get k1 (dict_delitem k2 d) = dict_get k1 d.
Proof.
  intros Hne.
  induction d as [|[k' v'] d IH]; cbn; [reflexivity|].
  destruct (key_eqb k' k2) eqn:E2; cbn.
  - destruct (key_eqb k' k1) eqn:E1; [|exact IH].
    apply key_eqb_descriptor_value in E1, E2. congruence.
  - destruct (key_eqb k' k1); [reflexivity | exact IH].
Qed.

End MoreDictFacts.

(** The event masks [_BaseSelectorImpl.register] accepts are exactly
    [EVENT_READ], [EVENT_WRITE] and their union: 1, 2 and 3. *)
Lemma valid_events_are_read_write_or_both :
  forall events : Z,
    invalid_events events = false <-> 1 <= events <= 3.
Proof.
  intros ev. unfold invalid_events.
  change (Z.lor selectors.EVENT_READ selectors.EVENT_WRITE) with (Z.ones 2).
  rewrite orb_false_iff, negb_false_iff, Z.eqb_neq, Z.eqb_eq.
  assert (Hsplit : ev = Z.lor (Z.land ev (Z.ones 2)) (Z.land ev (Z.lnot (Z.ones 2)))).
  { rewrite <- Z.land_lor_distr_r, Z.lor_lnot_diag, Z.land_m1_r. reflexivity. }
  split.
  - intros [Hnz Hhigh].
    rewrite Hhigh, Z.lor_0_r, Z.land_ones in Hsplit by lia.
    pose proof (Z.mod_pos_bound ev (2 ^ 2) ltac:(lia)). lia.
  - intros Hr. split; [lia|].
    assert (Hc : ev = 1 \/ ev = 2 \/ ev = 3) by lia.
    destruct Hc as [Hc|[Hc|Hc]]; subst ev; reflexivity.
Qed.

(** ** Registrations kept in the local table *)

Section LocalRegistrations.
Context {rt : PyRuntime} {B : Type} {real : RealSelector B}.
Import TestSelector.

Lemma register_local (self : t B) f ev dt :
  forward_to self f = Return None ->
  register f ev dt self
  = if invalid_events ev then (self, Raise ValueError)
    else match _fileobj_lookup self f with
         | Raise e => (self, Raise e)
         | Return d =>
             if dict_contains d (_fd_to_key self) then (self, Raise KeyError)
             else (set_fd_to_key
                     (dict_setitem d (selectors.mkSelectorKey f d ev dt) (_fd_to_key self)) self,
                   Return (Some (selectors.mkSelectorKey f d ev dt)))
         end.
Proof.
  intros H. unfold register. rewrite H.
  unfold as_key, selectors.register, invalid_events.
  destruct (_ || _); [reflexivity|].
  destruct (_fileobj_lookup self f) as [d|e]; [|reflexivity].
  cbn [selectors.fd]. fold (_fd_to_key self).
  destruct (dict_contains d (_fd_to_key self)); reflexivity.
Qed.

Lemma unregister_local (self : t B) f :
  forward_to self f = Return None ->
  unregister f self
  = match _fileobj_lookup self f with
    | Raise e => (self, Raise e)
    | Return d =>
        match dict_get d (_fd_to_key self) with
        | Some key =>
            (set_fd_to_key (dict_delitem d (_fd_to_key self)) self,
             Return (Some key))
        | None => (self, Raise KeyError)
        end
    end.
Proof.
  intros H. unfold unregister. rewrite H.
  unfold as_key, selectors.unregister, dict_pop.
  destruct (_fileobj_lookup self f) as [d|e]; [|reflexivity].
  fold (_fd_to_key self).
  destruct (dict_get d (_fd_to_key self)); reflexivity.
Qed.

Lemma set_fd_to_key_same (self : t B) :
  set_fd_to_key (_fd_to_key self) self = self.
Proof. now destruct self as [[m flag] sel]. Qed.

Lemma set_fd_to_key_twice (d d' : dict selectors.SelectorKey) (self : t B) :
  set_fd_to_key d (set_fd_to_key d' self) = set_fd_to_key d self.
Proof. reflexivity. Qed.

Lemma forward_to_set_fd_to_key (d : dict selectors.SelectorKey) (self : t B) f :
  forward_to (set_fd_to_key d self) f = forward_to self f.
Proof. reflexivity. Qed.

Lemma contains_of_get {V} (k : pyobj) (d : dict V) :
  dict_contains k d = match dict_get k d with Some _ => true | None => false end.
Proof. reflexivity. Qed.

Lemma invalid_events_true (ev : Z) :
  ~ (1 <= ev <= 3) -> invalid_events ev = true.
Proof.
  intros H. destruct (invalid_events ev) eqn:E; [reflexivity|].
  apply valid_events_are_read_write_or_both in E. contradiction.
Qed.

Lemma invalid_events_false (ev : Z) :
  1 <= ev <= 3 -> invalid_events ev = false.
Proof. apply valid_events_are_read_write_or_both. Qed.

Lemma pydata_eqb_eq (a b : selectors.pydata) :
  selectors.pydata_eqb a b = true -> a = b.
Proof.
  destruct a as [x|], b as [y|]; cbn; try discriminate; try reflexivity.
  intros H. apply Nat.eqb_eq in H. now subst.
Qed.

End LocalRegistrations.

(** X5: on the local path (the object is a mock, or no selector is
    wrapped), [register] with an event mask other than 1, 2 or 3 raises
    [ValueError] and changes nothing; the mask is checked before the object
    is looked at. *)
Theorem register_rejects_other_event_masks :
  forall (rt : PyRuntime) (B : Type) (real : RealSelector B)
         (self : TestSelector.t B) (f : pyobj) (ev : Z) (dt : selectors.pydata),
    TestSelector.forward_to self f = Return None ->
    ~ (1 <= ev <= 3) ->
    TestSelector.register f ev dt self = (self, Raise ValueError).
Proof.
  intros rt B real self f ev dt Hloc Hev.
  rewrite (register_local self f ev dt Hloc).
  now rewrite (invalid_events_true ev Hev).
Qed.

Lemma register_rejects_other_event_masks_witness :
  TestSelector.register (rt := example_runtime) (real := stale_checking)
    the_mock 4 None (TestSelector.__init__ (Some tt))
  = (TestSelector.__init__ (Some tt), Raise ValueError).
Proof.
  apply (register_rejects_other_event_masks example_runtime unit stale_checking);
    [reflexivity | lia].
Defined.

(** X6: on the local path, registering an object whose descriptor [d] is
    not in the table, with a mask among 1, 2, 3, returns the key
    [(fileobj, d, events, data)], and afterwards the table gives that key
    for [d].  The wrapped selector is not touched, and the entry of every
    descriptor of another integer value is as it was. *)
Theorem register_then_lookup :
  forall (rt : PyRuntime) (B : Type) (real : RealSelector B)
         (self : TestSelector.t B) (f d : pyobj) (ev : Z) (dt : selectors.pydata),
    TestSelector.forward_to self f = Return None ->
    TestSelector._fileobj_lookup self f = Return d ->
    1 <= ev <= 3 ->
    dict_get d (TestSelector._fd_to_key self) = None ->
    let key := selectors.mkSelectorKey f d ev dt in
    let after := fst (TestSelector.register f ev dt self) in
    snd (TestSelector.register f ev dt self) = Return (Some key)
    /\ dict_get d (TestSelector._fd_to_key after) = Some key
    /\ TestSelector._selector after = TestSelector._selector self
    /\ (forall d', descriptor_value d' <> descriptor_value d ->
                   dict_get d' (TestSelector._fd_to_key after)
                   = dict_get d' (TestSelector._fd_to_key self)).
Proof.
  intros rt B real self f d ev dt Hloc Hlook Hev Hfree key after.
  subst after. rewrite (register_local self f ev dt Hloc).
  rewrite (invalid_events_false ev Hev), Hlook, contains_of_get, Hfree.
  cbn [fst snd]. rewrite fd_to_key_set_fd_to_key.
  repeat split.
  - apply dict_get_setitem.
  - intros d' Hne. now apply dict_get_setitem_other.
Qed.

Lemma register_then_lookup_witness :
  dict_get (rt := example_runtime) (PFd 0)
    (TestSelector._fd_to_key
       (fst (TestSelector.register (rt := example_runtime)
               (real := stale_checking) the_mock selectors.EVENT_READ None
               (TestSelector.__init__ (Some tt)))))
  = Some mock_key.
Proof.
  destruct (register_then_lookup example_runtime unit stale_checking
              (TestSelector.__init__ (Some tt)) the_mock (PFd 0)
              selectors.EVENT_READ None eq_refl eq_refl
              ltac:(vm_compute; split; discriminate) eq_refl)
    as (_ & H & _).
  exact H.
Defined.

(** X7: registering a mock a second time raises [KeyError] and leaves the
    first registration in place, whatever the events and data of the second
    call (as long as its mask is valid). *)
Theorem register_twice_raises_KeyError :
  forall (rt : PyRuntime) (B : Type) (real : RealSelector B)
         (self : TestSelector.t B) (f : pyobj)
         (ev ev' : Z) (dt dt' : selectors.pydata),
    isfilemock f = Return true ->
    1 <= ev <= 3 -> 1 <= ev' <= 3 ->
    (forall d, fd f = Return d ->
               dict_get d (TestSelector._fd_to_key self) = None) ->
    let once := fst (TestSelector.register f ev dt self) in
    TestSelector.register f ev' dt' once = (once, Raise KeyError).
Proof.
  intros rt B real self f ev ev' dt dt' Hmock Hev Hev' Hfree once.
  destruct (isfilemock_true_inv f Hmock) as (n & Hfd & Hlook).
  assert (Hloc : forall s : TestSelector.t B,
             TestSelector.forward_to s f = Return None)
    by (intros s; now apply forward_to_synthetic).
  subst once. rewrite (register_local self f ev dt (Hloc self)).
  rewrite (invalid_events_false ev Hev), Hlook, contains_of_get, (Hfree _ Hfd).
  cbn [fst]. rewrite (register_local _ f ev' dt' (Hloc _)).
  rewrite (invalid_events_false ev' Hev'), Hlook, contains_of_get.
  rewrite fd_to_key_set_fd_to_key, dict_get_setitem. reflexivity.
Qed.

Lemma register_twice_raises_KeyError_witness :
  TestSelector.register (rt := example_runtime) (real := failing_close)
    the_mock selectors.EVENT_WRITE (Some 7%nat) failing_with_mock
  = (failing_with_mock, Raise KeyError).
Proof.
  apply (register_twice_raises_KeyError example_runtime unit failing_close
           (TestSelector.__init__ (Some tt)) the_mock
           selectors.EVENT_READ selectors.EVENT_WRITE None (Some 7%nat)
           eq_refl);
    [vm_compute; split; discriminate | vm_compute; split; discriminate |].
  intros d Hd. injection Hd as <-. reflexivity.
Defined.

(** X8: on the local path, [unregister] of an object whose descriptor is not
    in the table raises [KeyError] and changes nothing. *)
Theorem unregister_unknown_raises_KeyError :
  forall (rt : PyRuntime) (B : Type) (real : RealSelector B)
         (self : TestSelector.t B) (f d : pyobj),
    TestSelector.forward_to self f = Return None ->
    TestSelector._fileobj_lookup self f = Return d ->
    dict_get d (TestSelector._fd_to_key self) = None ->
    TestSelector.unregister f self = (self, Raise KeyError).
Proof.
  intros rt B real self f d Hloc Hlook Hfree.
  rewrite (unregister_local self f Hloc), Hlook, Hfree. reflexivity.
Qed.

Lemma unregister_unknown_raises_KeyError_witness :
  TestSelector.unregister (rt := example_runtime) (real := stale_checking)
    the_mock (TestSelector.__init__ (Some tt))
  = (TestSelector.__init__ (Some tt), Raise KeyError).
Proof.
  apply (unregister_unknown_raises_KeyError example_runtime unit stale_checking
           (TestSelector.__init__ (Some tt)) the_mock (PFd 0));
    reflexivity.
Defined.

(** X9: registering a mock whose descriptor is free and then unregistering
    it returns the key of the registration and puts the selector back in
    the state it had before. *)
Theorem register_unregister_round_trip :
  forall (rt : PyRuntime) (B : Type) (real : RealSelector B)
         (self : TestSelector.t B) (f d : pyobj) (ev : Z) (dt : selectors.pydata),
    isfilemock f = Return true ->
    fd f = Return d ->
    1 <= ev <= 3 ->
    dict_get d (TestSelector._fd_to_key self) = None ->
    TestSelector.unregister f (fst (TestSelector.register f ev dt self))
    = (self, Return (Some (selectors.mkSelectorKey f d ev dt))).
Proof.
  intros rt B real self f d ev dt Hmock Hfd Hev Hfree.
  destruct (isfilemock_true_inv f Hmock) as (n & Hfd' & Hlook).
  assert (d = PFd n) by congruence. subst d.
  assert (Hloc : forall s : TestSelector.t B,
             TestSelector.forward_to s f = Return None)
    by (intros s; now apply forward_to_synthetic).
  rewrite (register_local self f ev dt (Hloc self)).
  rewrite (invalid_events_false ev Hev), Hlook, contains_of_get, Hfree.
  cbn [fst]. rewrite (unregister_local _ f (Hloc _)), Hlook.
  rewrite fd_to_key_set_fd_to_key, dict_get_setitem.
  rewrite set_fd_to_key_twice, (dict_delitem_setitem_absent _ _ _ Hfree).
  now rewrite set_fd_to_key_same.
Qed.

Lemma register_unregister_round_trip_witness :
  TestSelector.unregister (rt := example_runtime) (real := failing_close)
    the_mock failing_with_mock
  = (TestSelector.__init__ (Some tt), Return (Some mock_key)).
Proof.
  apply (register_unregister_round_trip example_runtime unit failing_close
           (TestSelector.__init__ (Some tt)) the_mock (PFd 0)
           selectors.EVENT_READ None eq_refl eq_refl
           ltac:(vm_compute; split; discriminate) eq_refl).
Defined.

(** ** Modifying a registered mock *)

Section ModifyMock.
Context {rt : PyRuntime} {B : Type} {real : RealSelector B}.
Import TestSelector.

Lemma modify_local_mock (self : t B) (f d : pyobj) (key : selectors.SelectorKey)
      (ev : Z) (dt : selectors.pydata) :
  isfilemock f = Return true ->
  fd f = Return d ->
  dict_get d (_fd_to_key self) = Some key ->
  modify f ev dt self
  = if negb (ev =? selectors.events key) then
      register f ev dt (set_fd_to_key (dict_delitem d (_fd_to_key self)) self)
    else if negb (selectors.pydata_eqb dt (selectors.data key)) then
      let key' := selectors.mkSelectorKey (selectors.fileobj key)
                    (selectors.fd key) (selectors.events key) dt in
      (set_fd_to_key (dict_setitem (selectors.fd key) key' (_fd_to_key self)) self,
       Return (Some key'))
    else (self, Return (Some key)).
Proof.
  intros Hmock Hfd Hget.
  destruct (isfilemock_true_inv f Hmock) as (n & Hfd' & Hlook).
  assert (d = PFd n) by congruence. subst d.
  unfold modify. rewrite (forward_to_synthetic self f Hmock).
  unfold selectors.modify. rewrite Hlook. fold (_fd_to_key self). rewrite Hget.
  destruct (negb (ev =? selectors.events key)); [|reflexivity].
  unfold bind.
  rewrite (unregister_local self f (forward_to_synthetic self f Hmock)).
  now rewrite Hlook, Hget.
Qed.

End ModifyMock.

(** X10: [modify] on a registered mock with new events that are not a valid
    mask raises [ValueError] and leaves the mock unregistered: the old
    registration is removed before the new one is refused. *)
Theorem modify_with_invalid_events_unregisters :
  forall (rt : PyRuntime) (B : Type) (real : RealSelector B)
         (self : TestSelector.t B) (f d : pyobj) (key : selectors.SelectorKey)
         (ev : Z) (dt : selectors.pydata),
    isfilemock f = Return true ->
    fd f = Return d ->
    dict_get d (TestSelector._fd_to_key self) = Some key ->
    ev <> selectors.events key ->
    ~ (1 <= ev <= 3) ->
    snd (TestSelector.modify f ev dt self) = Raise ValueError
    /\ dict_get d (TestSelector._fd_to_key (fst (TestSelector.modify f ev dt self)))
       = None.
Proof.
  intros rt B real self f d key ev dt Hmock Hfd Hget Hne Hev.
  rewrite (modify_local_mock self f d key ev dt Hmock Hfd Hget).
  apply Z.eqb_neq in Hne. rewrite Hne. cbn [negb].
  rewrite (register_local _ f ev dt (forward_to_synthetic _ f Hmock)).
  rewrite (invalid_events_true ev Hev). cbn [fst snd].
  split; [reflexivity|].
  rewrite fd_to_key_set_fd_to_key. apply dict_get_delitem.
Qed.

Lemma modify_with_invalid_events_unregisters_witness :
  snd (TestSelector.modify (rt := example_runtime) (real := failing_close)
         the_mock 0 None failing_with_mock)
  = Raise ValueError
  /\ dict_get (rt := example_runtime) (PFd 0)
       (TestSelector._fd_to_key
          (fst (TestSelector.modify (rt := example_runtime)
                  (real := failing_close) the_mock 0 None failing_with_mock)))
     = None.
Proof.
  apply (modify_with_invalid_events_unregisters example_runtime unit
           failing_close failing_with_mock the_mock (PFd 0) mock_key 0 None
           eq_refl eq_refl eq_refl);
    [vm_compute; discriminate | lia].
Defined.

(** X11: [modify] on a registered mock with a valid mask returns a key
    carrying the new events and the new data, and the table gives that key
    for the mock's descriptor afterwards; the wrapped selector is not
    involved.  (The entry is assumed stored under its own descriptor, as
    [register] stores it.) *)
Theorem modify_updates_the_registration :
  forall (rt : PyRuntime) (B : Type) (real : RealSelector B)
         (self : TestSelector.t B) (f d : pyobj) (key : selectors.SelectorKey)
         (ev : Z) (dt : selectors.pydata),
    isfilemock f = Return true ->
    fd f = Return d ->
    dict_get d (TestSelector._fd_to_key self) = Some key ->
    selectors.fd key = d ->
    1 <= ev <= 3 ->
    exists key',
      snd (TestSelector.modify f ev dt self) = Return (Some key')
      /\ selectors.events key' = ev
      /\ selectors.data key' = dt
      /\ selectors.fd key' = d
      /\ dict_get d (TestSelector._fd_to_key
                       (fst (TestSelector.modify f ev dt self))) = Some key'
      /\ TestSelector._selector (fst (TestSelector.modify f ev dt self))
         = TestSelector._selector self.
Proof.
  intros rt B real self f d key ev dt Hmock Hfd Hget Hkfd Hev.
  destruct (isfilemock_true_inv f Hmock) as (n & Hfd' & Hlook).
  assert (Hd : d = PFd n) by congruence. rewrite Hd in *. clear Hd.
  rewrite (modify_local_mock self f (PFd n) key ev dt Hmock Hfd Hget).
  destruct (ev =? selectors.events key) eqn:Eev; cbn [negb].
  - apply Z.eqb_eq in Eev.
    destruct (selectors.pydata_eqb dt (selectors.data key)) eqn:Edt; cbn [negb].
    + apply pydata_eqb_eq in Edt.
      exists key. cbn [fst snd]. repeat split; auto.
    + eexists. cbv zeta. cbn [fst snd]. split; [reflexivity|].
      cbn [selectors.events selectors.data selectors.fd].
      repeat split; auto.
      rewrite fd_to_key_set_fd_to_key, Hkfd. apply dict_get_setitem.
  - rewrite (register_local _ f ev dt (forward_to_synthetic _ f Hmock)).
    rewrite (invalid_events_false ev Hev), Hlook, contains_of_get.
    rewrite fd_to_key_set_fd_to_key, dict_get_delitem.
    eexists. cbn [fst snd]. split; [reflexivity|].
    cbn [selectors.events selectors.data selectors.fd].
    repeat split; auto.
    rewrite fd_to_key_set_fd_to_key. apply dict_get_setitem.
Qed.

Lemma modify_updates_the_registration_witness :
  exists key',
    snd (TestSelector.modify (rt := example_runtime) (real := failing_close)
           the_mock selectors.EVENT_WRITE (Some 3%nat) failing_with_mock)
    = Return (Some key')
    /\ selectors.events key' = selectors.EVENT_WRITE
    /\ selectors.data key' = Some 3%nat
    /\ selectors.fd key' = PFd 0
    /\ dict_get (rt := example_runtime) (PFd 0)
         (TestSelector._fd_to_key
            (fst (TestSelector.modify (rt := example_runtime)
                    (real := failing_close)
                    the_mock selectors.EVENT_WRITE (Some 3%nat)
                    failing_with_mock))) = Some key'
    /\ TestSelector._selector
         (fst (TestSelector.modify (rt := example_runtime)
                 (real := failing_close)
                 the_mock selectors.EVENT_WRITE (Some 3%nat)
                 failing_with_mock))
       = TestSelector._selector failing_with_mock.
Proof.
  apply (modify_updates_the_registration example_runtime unit failing_close
           failing_with_mock the_mock (PFd 0) mock_key
           selectors.EVENT_WRITE (Some 3%nat) eq_refl eq_refl eq_refl eq_refl).
  vm_compute. split; discriminate.
Defined.

(** ** Injection on mocks *)

(** X12: for a mock, the callback scheduled by [set_read_ready] or
    [set_write_ready] never raises by itself: if the mock's descriptor is
    registered on the loop's selector it makes the single call of
    [_process_events] with the registered key and the event, and otherwise
    it does nothing. *)
Theorem injection_on_a_mock_is_processed_or_dropped :
  forall (rt : PyRuntime) (B L : Type) (loop_ops : EventLoop B L)
         (f d : pyobj) (dir : direction) (loop : L),
    isfilemock f = Return true ->
    fd f = Return d ->
    run_scheduled (mkScheduled f (event_of dir)) loop
    = match dict_get d (TestSelector._fd_to_key (loop_selector loop)) with
      | Some key => _process_events [(key, event_of dir)] loop
      | None => (loop, Return tt)
      end.
Proof.
  intros rt B L loop_ops f d dir loop Hmock Hfd.
  destruct (isfilemock_true_inv f Hmock) as (n & Hfd' & Hlook).
  assert (Hd : d = PFd n) by congruence. subst d.
  unfold run_scheduled, _set_event_ready. cbn [sched_fileobj sched_event].
  rewrite Hlook, contains_of_get.
  destruct (dict_get (PFd n) _); reflexivity.
Qed.

Lemma injection_on_a_mock_is_processed_or_dropped_witness :
  run_scheduled (rt := example_runtime) (loop_ops := recording_loop)
    (mkScheduled the_mock (event_of Writable)) loop_with_mock
  = (mkLoop (rl_selector loop_with_mock) []
       [[(mock_key, selectors.EVENT_WRITE)]],
     Return tt).
Proof.
  rewrite (injection_on_a_mock_is_processed_or_dropped example_runtime unit
             RecordingLoop recording_loop the_mock (PFd 0) Writable
             loop_with_mock eq_refl eq_refl).
  reflexivity.
Defined.

(** ** Sockets closed before they are unregistered *)

Lemma find_last {A} (p : A -> bool) (l : list A) (x : A) :
  (forall y, In y l -> p y = false) -> p x = true ->
  find p (l ++ [x]) = Some x.
Proof.
  intros Hl Hx. induction l as [|y l IH]; cbn.
  - now rewrite Hx.
  - rewrite (Hl y (or_introl eq_refl)). apply IH.
    intros z Hz. apply Hl. now right.
Qed.

(** X13: without a wrapped selector, a socket registered while open on
    descriptor [n] can still be unregistered after it has been closed (its
    [fileno()] then gives [-1]): the lookup falls back on the search of the
    table for the object itself and finds descriptor [n], and [unregister]
    restores the state from before the registration. *)
Theorem closed_socket_can_still_be_unregistered :
  forall (rt : PyRuntime) (B : Type) (real : RealSelector B)
         (self : TestSelector.t B) (oid : nat) (n ev : Z) (dt : selectors.pydata),
    TestSelector._selector self = None ->
    0 <= n ->
    1 <= ev <= 3 ->
    dict_get (PInt n) (TestSelector._fd_to_key self) = None ->
    (forall key, In key (dict_values (TestSelector._fd_to_key self)) ->
                 py_is (selectors.fileobj key) (PObj oid (Return (PInt n))) = false) ->
    let sock := PObj oid (Return (PInt n)) in
    let closed := PObj oid (Return (PInt (-1))) in
    let registered := fst (TestSelector.register sock ev dt self) in
    TestSelector._fileobj_lookup registered closed = Return (PInt n)
    /\ TestSelector.unregister closed registered
       = (self, Return (Some (selectors.mkSelectorKey sock (PInt n) ev dt))).
Proof.
  intros rt B real self oid n ev dt Hsel Hn Hev Hfree Hnew sock closed registered.
  assert (Hloc : forall (s : TestSelector.t B) r,
             TestSelector._selector s = None ->
             TestSelector.forward_to s (PObj oid (Return (PInt r))) = Return None).
  { intros s r Hs. unfold TestSelector.forward_to. cbn. now rewrite Hs. }
  assert (Hlook : TestSelector._fileobj_lookup self sock = Return (PInt n)).
  { unfold TestSelector._fileobj_lookup, selectors._fileobj_lookup,
      selectors._fileobj_to_fd. cbn.
    destruct (n <? 0) eqn:E; [apply Z.ltb_lt in E; lia | reflexivity]. }
  subst registered.
  rewrite (register_local self sock ev dt (Hloc self n Hsel)).
  rewrite (invalid_events_false ev Hev), Hlook, contains_of_get, Hfree.
  cbn [fst]. rewrite (dict_setitem_absent _ _ _ Hfree).
  set (key := selectors.mkSelectorKey sock (PInt n) ev dt).
  assert (Hlook' : TestSelector._fileobj_lookup
                     (TestSelector.set_fd_to_key
                        (TestSelector._fd_to_key self ++ [(PInt n, key)]) self)
                     closed = Return (PInt n)).
  { unfold TestSelector._fileobj_lookup, selectors._fileobj_lookup,
      selectors._fileobj_to_fd. cbn.
    unfold dict_values. rewrite map_app. cbn [map snd].
    rewrite find_last.
    - reflexivity.
    - intros y Hy. specialize (Hnew y Hy).
      destruct (selectors.fileobj y); cbn in *; auto.
    - cbn. apply Nat.eqb_refl. }
  split; [exact Hlook'|].
  rewrite (unregister_local
             (TestSelector.set_fd_to_key
                (TestSelector._fd_to_key self ++ [(PInt n, key)]) self)
             closed (Hloc _ (-1) Hsel)), Hlook'.
  rewrite fd_to_key_set_fd_to_key, <- (dict_setitem_absent _ key _ Hfree).
  rewrite dict_get_setitem, set_fd_to_key_twice.
  rewrite (dict_delitem_setitem_absent _ _ _ Hfree).
  now rewrite set_fd_to_key_same.
Qed.

Lemma closed_socket_can_still_be_unregistered_witness :
  TestSelector.unregister (rt := example_runtime) (real := stale_checking)
    (closed_socket 2)
    (fst (TestSelector.register (rt := example_runtime) (real := stale_checking)
            the_socket selectors.EVENT_READ None (TestSelector.__init__ None)))
  = (TestSelector.__init__ None,
     Return (Some (socket_key selectors.EVENT_READ))).
Proof.
  apply (closed_socket_can_still_be_unregistered example_runtime unit
           stale_checking (TestSelector.__init__ None) 2%nat 5
           selectors.EVENT_READ None eq_refl ltac:(lia)
           ltac:(vm_compute; split; discriminate) eq_refl).
  intros key [].
Defined.

(** ** After close *)

(** X14: after a [close] that returns, nothing is registered: the table is
    empty, unregistering any mock raises [KeyError], and a mock can be
    registered again.  Without a wrapped selector a second [close] returns
    too and changes nothing more. *)
Theorem close_leaves_nothing_registered :
  forall (rt : PyRuntime) (B : Type) (real : RealSelector B)
         (self : TestSelector.t B),
    snd (TestSelector.close self) = Return tt ->
    let closed := fst (TestSelector.close self) in
    TestSelector._fd_to_key closed = []
    /\ (forall f, isfilemock f = Return true ->
                  TestSelector.unregister f closed = (closed, Raise KeyError))
    /\ (forall f d ev dt,
           isfilemock f = Return true -> fd f = Return d -> 1 <= ev <= 3 ->
           snd (TestSelector.register f ev dt closed)
           = Return (Some (selectors.mkSelectorKey f d ev dt)))
    /\ (TestSelector._selector self = None ->
        TestSelector.close closed = (closed, Return tt)).
Proof.
  intros rt B real self Hret closed.
  assert (Hempty : TestSelector._fd_to_key closed = []).
  { subst closed. revert Hret. unfold TestSelector.close.
    destruct self as [base [b|]]; cbn.
    - unfold TestSelector.on_selector.
      destruct (real_close b) as [b' [u|e]]; cbn; [reflexivity | discriminate].
    - reflexivity. }
  split; [exact Hempty|]. split; [|split].
  - intros f Hmock.
    destruct (isfilemock_true_inv f Hmock) as (n & _ & Hlook).
    rewrite (unregister_local closed f (forward_to_synthetic closed f Hmock)).
    now rewrite Hlook, Hempty.
  - intros f d ev dt Hmock Hfd Hev.
    destruct (isfilemock_true_inv f Hmock) as (n & Hfd' & Hlook).
    assert (Hd : d = PFd n) by congruence. subst d.
    rewrite (register_local closed f ev dt (forward_to_synthetic closed f Hmock)).
    now rewrite (invalid_events_false ev Hev), Hlook, contains_of_get, Hempty.
  - intros Hsel. subst closed. destruct self as [base sel]. cbn in Hsel.
    subst sel. reflexivity.
Qed.

Lemma close_leaves_nothing_registered_witness :
  TestSelector.unregister (rt := example_runtime) (real := stale_checking)
    the_mock
    (fst (TestSelector.close (real := stale_checking)
            (register_mock stale_checking (Some tt))))
  = (fst (TestSelector.close (real := stale_checking)
            (register_mock stale_checking (Some tt))),
     Raise KeyError).
Proof.
  destruct (close_leaves_nothing_registered example_runtime unit stale_checking
              (register_mock stale_checking (Some tt)) eq_refl)
    as (_ & H & _).
  apply H. reflexivity.
Defined.

(** ** Registrations forwarded to the wrapped selector *)

Section Forwarded.
Context {rt : PyRuntime} {B : Type} {real : RealSelector B}.
Import TestSelector.

Lemma register_forwarded (self : t B) (b : B) f ev dt :
  _selector self = Some b ->
  isfilemock f = Return false ->
  register f ev dt self
  = match real_register f ev dt b with
    | (b', Return (Some key)) =>
        (mirror key (set_selector b' self), Return (Some key))
    | (b', r) => (set_selector b' self, r)
    end.
Proof.
  intros Hsel Hmock. unfold register.
  rewrite (forward_to_real self f Hmock), Hsel. unfold on_selector.
  destruct (real_register f ev dt b) as [b' [[key|]|e]]; reflexivity.
Qed.

Lemma unregister_forwarded (self : t B) (b : B) f :
  _selector self = Some b ->
  isfilemock f = Return false ->
  unregister f self
  = match real_unregister f b with
    | (b', Return (Some key)) =>
        (unmirror (selectors.fd key) (set_selector b' self), Return (Some key))
    | (b', r) => (set_selector b' self, r)
    end.
Proof.
  intros Hsel Hmock. unfold unregister.
  rewrite (forward_to_real self f Hmock), Hsel. unfold on_selector.
  destruct (real_unregister f b) as [b' [[key|]|e]]; reflexivity.
Qed.

End Forwarded.

(** X15: for an object that is not a mock, in a [TestSelector] wrapping a
    selector, [register] returns or raises exactly what the wrapped
    selector's [register] does, whatever the local table holds; the table
    changes at most under the descriptor of the key that comes back. *)
Theorem forwarded_register_mirrors_the_returned_key :
  forall (rt : PyRuntime) (B : Type) (real : RealSelector B)
         (self : TestSelector.t B) (b : B) (f : pyobj)
         (ev : Z) (dt : selectors.pydata),
    TestSelector._selector self = Some b ->
    isfilemock f = Return false ->
    let after := fst (TestSelector.register f ev dt self) in
    snd (TestSelector.register f ev dt self) = snd (real_register f ev dt b)
    /\ TestSelector._selector after = Some (fst (real_register f ev dt b))
    /\ (forall key, snd (real_register f ev dt b) = Return (Some key) ->
                    dict_get (selectors.fd key) (TestSelector._fd_to_key after)
                    = Some key)
    /\ (forall d',
           (forall key, snd (real_register f ev dt b) = Return (Some key) ->
                        descriptor_value d' <> descriptor_value (selectors.fd key)) ->
           dict_get d' (TestSelector._fd_to_key after)
           = dict_get d' (TestSelector._fd_to_key self)).
Proof.
  intros rt B real self b f ev dt Hsel Hmock after. subst after.
  rewrite (register_forwarded self b f ev dt Hsel Hmock).
  destruct (real_register f ev dt b) as [b' [[key|]|e]]; cbn [fst snd].
  - split; [reflexivity|]. split; [reflexivity|]. split.
    + intros key' Hk. injection Hk as <-. apply mirror_stores.
    + intros d' Hd'. unfold TestSelector.mirror.
      rewrite fd_to_key_set_fd_to_key, fd_to_key_set_selector.
      apply dict_get_setitem_other. now apply Hd'.
  - repeat split; try reflexivity. intros key Hk. discriminate Hk.
  - repeat split; try reflexivity. intros key Hk. discriminate Hk.
Qed.

Lemma forwarded_register_mirrors_the_returned_key_witness :
  snd (TestSelector.register (rt := example_runtime) (real := stale_checking)
         the_socket selectors.EVENT_READ None
         (register_mock stale_checking (Some tt)))
  = Return (Some (socket_key selectors.EVENT_READ)).
Proof.
  destruct (forwarded_register_mirrors_the_returned_key example_runtime unit
              stale_checking (register_mock stale_checking (Some tt)) tt
              the_socket selectors.EVENT_READ None eq_refl eq_refl)
    as (H & _).
  rewrite H. reflexivity.
Defined.

(** X16: for an object that is not a mock, when the wrapped selector
    registers it under a descriptor the local table does not hold and later
    unregisters it with the same key, [register] followed by [unregister]
    leaves the local table as it was: the mirror goes with the
    registration. *)
Theorem forwarded_register_unregister_round_trip :
  forall (rt : PyRuntime) (B : Type) (real : RealSelector B)
         (self : TestSelector.t B) (b b1 b2 : B) (f : pyobj)
         (ev : Z) (dt : selectors.pydata) (key : selectors.SelectorKey),
    TestSelector._selector self = Some b ->
    isfilemock f = Return false ->
    real_register f ev dt b = (b1, Return (Some key)) ->
    real_unregister f b1 = (b2, Return (Some key)) ->
    dict_get (selectors.fd key) (TestSelector._fd_to_key self) = None ->
    TestSelector.unregister f (fst (TestSelector.register f ev dt self))
    = (TestSelector.set_selector b2 self, Return (Some key)).
Proof.
  intros rt B real self b b1 b2 f ev dt key Hsel Hmock Hreg Hunreg Hfree.
  rewrite (register_forwarded self b f ev dt Hsel Hmock), Hreg. cbn [fst].
  rewrite (unregister_forwarded
             (TestSelector.mirror key (TestSelector.set_selector b1 self))
             b1 f eq_refl Hmock), Hunreg.
  destruct self as [[m flag] sel].
  unfold TestSelector.unmirror, TestSelector.mirror, TestSelector._fd_to_key,
    TestSelector.set_fd_to_key, TestSelector.set_selector,
    selectors.set_fd_to_key, TestSelector.set_super in *.
  cbn [TestSelector.super TestSelector._selector selectors._fd_to_key
         selectors._map] in *.
  rewrite contains_of_get, dict_get_setitem.
  now rewrite (dict_delitem_setitem_absent _ _ _ Hfree).
Qed.

Lemma forwarded_register_unregister_round_trip_witness :
  TestSelector.unregister (rt := example_runtime) (real := stale_checking)
    the_socket wrapping_with_socket
  = (TestSelector.__init__ (Some tt),
     Return (Some (socket_key selectors.EVENT_READ))).
Proof.
  apply (forwarded_register_unregister_round_trip example_runtime unit
           stale_checking (TestSelector.__init__ (Some tt)) tt tt tt
           the_socket selectors.EVENT_READ None
           (socket_key selectors.EVENT_READ)
           eq_refl eq_refl eq_refl eq_refl eq_refl).
Defined.

(** ** One entry per key *)

Section OneEntryPerKey.
Context {rt : PyRuntime} {V : Type}.









End OneEntryPerKey.

Section TableInvariant.
Context {rt : PyRuntime} {B : Type} {real : RealSelector B}.
Import TestSelector.







End TableInvariant.

Section ReachableTables.
Context {rt : PyRuntime} {B : Type} {real : RealSelector B}.


End ReachableTables.

Section DeleteOne.
Context {rt : PyRuntime} {V : Type}.



End DeleteOne.


(** ** Objects without a usable descriptor *)

(** X18: the errors of [TestSelector._fileobj_lookup] on an object that no
    registered key refers to.  A negative plain [int] and an object without
    a [fileno] attribute raise [ValueError].  An object whose [fileno()]
    raises another exception raises that exception, unchanged: it comes out
    of [isfilemock] before the inherited lookup, which would have turned a
    [TypeError] into [ValueError], is reached.  Hence on the local path
    [register] raises the same exception for a valid mask and changes
    nothing. *)
Theorem lookup_errors_without_a_descriptor :
  forall (rt : PyRuntime) (B : Type) (real : RealSelector B)
         (self : TestSelector.t B) (f : pyobj),
    (forall key, In key (dict_values (TestSelector._fd_to_key self)) ->
                 py_is (selectors.fileobj key) f = false) ->
    (forall n, f = PInt n -> n < 0 ->
               TestSelector._fileobj_lookup self f = Raise ValueError)
    /\ (forall oid, f = PObj oid (Raise AttributeError) ->
                    TestSelector._fileobj_lookup self f = Raise ValueError)
    /\ (forall oid e, f = PObj oid (Raise e) -> e <> AttributeError ->
                      TestSelector._fileobj_lookup self f = Raise e)
    /\ (forall e ev dt,
           TestSelector._fileobj_lookup self f = Raise e ->
           TestSelector.forward_to self f = Return None ->
           1 <= ev <= 3 ->
           TestSelector.register f ev dt self = (self, Raise e)).
Proof.
  intros rt B real self f Hnew.
  assert (Hfind : find (fun key => py_is (selectors.fileobj key) f)
                    (dict_values (TestSelector._fd_to_key self)) = None).
  { revert Hnew. generalize (dict_values (TestSelector._fd_to_key self)).
    intros l. induction l as [|y l IH]; cbn; [reflexivity|].
    intros H. rewrite (H y (or_introl eq_refl)). apply IH.
    intros z Hz. apply H. now right. }
  unfold TestSelector._fd_to_key in Hfind.
  split; [|split; [|split]].
  - intros n -> Hn.
    unfold TestSelector._fileobj_lookup, selectors._fileobj_lookup,
      selectors._fileobj_to_fd. cbn.
    apply Z.ltb_lt in Hn. rewrite Hn. now rewrite Hfind.
  - intros oid ->.
    unfold TestSelector._fileobj_lookup, selectors._fileobj_lookup,
      selectors._fileobj_to_fd. cbn. now rewrite Hfind.
  - intros oid e -> He.
    unfold TestSelector._fileobj_lookup. destruct e; cbn; congruence.
  - intros e ev dt Hl Hloc Hev.
    rewrite (register_local self f ev dt Hloc).
    now rewrite (invalid_events_false ev Hev), Hl.
Qed.

Lemma lookup_errors_without_a_descriptor_witness :
  TestSelector._fileobj_lookup failing_with_mock (PObj 8 (Raise TypeError))
  = Raise TypeError
  /\ TestSelector.register (rt := example_runtime) (real := stale_checking)
       (PInt (-3)) selectors.EVENT_READ None (TestSelector.__init__ None)
     = (TestSelector.__init__ None, Raise ValueError).
Proof.
  split.
  - destruct (lookup_errors_without_a_descriptor example_runtime unit
                failing_close failing_with_mock (PObj 8 (Raise TypeError)))
      as (_ & _ & H & _).
    + intros key [<-|[]]. reflexivity.
    + apply (H 8%nat TypeError eq_refl). discriminate.
  - destruct (lookup_errors_without_a_descriptor example_runtime unit
                stale_checking (TestSelector.__init__ None) (PInt (-3)))
      as (H1 & _ & _ & H).
    + intros key [].
    + apply H; [apply (H1 (-3) eq_refl); lia | reflexivity
                | vm_compute; split; discriminate].
Defined.
